(** * Risk_Impact: the scoring pipeline and the weekly metrics

    A shallow embedding of [Risk_Impact.py] (repository
    mgassime/Workday-Resilience-AI) and the properties of its specification.

    Modelling conventions.
    - A JSON document loaded by [json.load] is a [Value]; a Python [dict] with
      string keys is a [gmap string Value].
    - Python numbers: an [int] is a [Z]; a [float] is an exact rational [Q].
      Rounding and overflow of binary64 arithmetic, [inf] and [nan] are
      outside the model, so equalities between scores are equalities of
      rationals ([==]).  Strings are ASCII.
    - An exception that is raised and not caught is a [Raise] result; the
      [try/except Exception] blocks of the source are written out as the
      default they return.
    - The builtins [int(str)], [float(str)] and [datetime.fromisoformat] are
      parameters of the development; the wall clock read by [datetime.now()]
      is an explicit argument, in microseconds. *)

From Stdlib Require Import QArith Qminmax Qround Lqa Lia ZArith Ascii.
From stdpp Require Import gmap strings list fin_maps.

Open Scope Q_scope.

(** ** Python values and exceptions *)

#[warnings="-register-all"]
Inductive Value : Type :=
| VNone
| VBool (b : bool)
| VInt (n : Z)
| VFloat (q : Q)
| VStr (s : string)
| VList (l : list Value)
| VDict (d : gmap string Value).

Inductive PyExc : Type :=
| NameError
| AttributeError
| TypeError
| ValueError.

Inductive Result (A : Type) : Type :=
| Ok (a : A)
| Raise (e : PyExc).
Arguments Ok {A} a.
Arguments Raise {A} e.

#[global] Instance Result_ret : MRet Result := fun A a => Ok a.
#[global] Instance Result_bind : MBind Result := fun A B f m =>
  match m with
  | Ok a => f a
  | Raise e => Raise e
  end.

Definition raises {A} (r : Result A) : Prop := exists e, r = Raise e.

Definition returns {A} (r : Result A) (P : A -> Prop) : Prop :=
  exists a, r = Ok a /\ P a.

(** ** Comparisons on rationals, as booleans *)

Definition Qleb (x y : Q) : bool := Qle_bool x y.
Definition Qltb (x y : Q) : bool := negb (Qle_bool y x).
Definition Qeqb (x y : Q) : bool := Qeq_bool x y.

(** [min(a, b)] and [max(a, b)] of Python keep the first argument unless the
    second is strictly smaller (resp. greater). *)
Definition py_min (a b : Q) : Q := if Qltb b a then b else a.
Definition py_max (a b : Q) : Q := if Qltb a b then b else a.

(** ** Truthiness, [dict.get], [str.strip], iteration, [len] *)

Definition truthy (v : Value) : bool :=
  match v with
  | VNone => false
  | VBool b => b
  | VInt n => negb (n =? 0)%Z
  | VFloat q => negb (Qeqb q 0)
  | VStr s => negb (String.eqb s "")
  | VList l => match l with [] => false | _ => true end
  | VDict d => negb (size d =? 0)%nat
  end.

(** [a or b] *)
Definition py_or (a b : Value) : Value := if truthy a then a else b.

(** [x is False], [x is True] *)
Definition is_False (v : Value) : bool :=
  match v with VBool false => true | _ => false end.
Definition is_True (v : Value) : bool :=
  match v with VBool true => true | _ => false end.

(** [obj.get(k, dflt)]: only a dict has the method. *)
Definition py_get_d (obj : Value) (k : string) (dflt : Value) : Result Value :=
  match obj with
  | VDict d => Ok (default dflt (d !! k))
  | _ => Raise AttributeError
  end.

(** [obj.get(k)] *)
Definition py_get (obj : Value) (k : string) : Result Value :=
  py_get_d obj k VNone.

Definition is_space (c : ascii) : bool :=
  let n := nat_of_ascii c in
  ((9 <=? n)%nat && (n <=? 13)%nat) || ((28 <=? n)%nat && (n <=? 32)%nat).

Fixpoint lstrip (s : string) : string :=
  match s with
  | EmptyString => EmptyString
  | String c s' => if is_space c then lstrip s' else s
  end.

Fixpoint rstrip (s : string) : string :=
  match s with
  | EmptyString => EmptyString
  | String c s' =>
      let r := rstrip s' in
      if is_space c && String.eqb r "" then EmptyString else String c r
  end.

Definition strip (s : string) : string := rstrip (lstrip s).

(** [x.strip()]: only a str has the method. *)
Definition py_strip (v : Value) : Result string :=
  match v with
  | VStr s => Ok (strip s)
  | _ => Raise AttributeError
  end.

(** [(ui.get(k) or "").strip()], the idiom by which the scorers read a label. *)
Definition get_label (ui : Value) (k : string) : Result string :=
  v ← py_get ui k;
  py_strip (py_or v (VStr "")).

Fixpoint chars (s : string) : list Value :=
  match s with
  | EmptyString => []
  | String c s' => VStr (String c EmptyString) :: chars s'
  end.

(** The elements a [for] loop visits. *)
Definition py_iter (v : Value) : Result (list Value) :=
  match v with
  | VList l => Ok l
  | VStr s => Ok (chars s)
  | VDict d => Ok ((fun kv => VStr kv.1) <$> map_to_list d)
  | _ => Raise TypeError
  end.

(** [len(v)] *)
Definition py_len (v : Value) : Result Z :=
  match v with
  | VList l => Ok (Z.of_nat (length l))
  | VStr s => Ok (Z.of_nat (String.length s))
  | VDict d => Ok (Z.of_nat (size d))
  | _ => Raise TypeError
  end.

(** [table.get(s, 0)] for a table keyed by strings: a list or a dict is not
    hashable, any other key that is not in the table gives the default. *)
Definition table_get (table : gmap string Z) (s : Value) : Result Z :=
  match s with
  | VStr k => Ok (default 0%Z (table !! k))
  | VList _ | VDict _ => Raise TypeError
  | _ => Ok 0%Z
  end.

(** [for s in xs: acc += table.get(s, 0)] *)
Fixpoint sum_points (table : gmap string Z) (xs : list Value) (acc : Z) : Result Z :=
  match xs with
  | [] => Ok acc
  | s :: xs' => p ← table_get table s; sum_points table xs' (acc + p)%Z
  end.

(** [l[-n:]] *)
Definition slice_last {A} (n : nat) (l : list A) : list A :=
  if (n =? 0)%nat then l else drop (length l - n) l.

(** [l[-1]] of a list known to be non-empty, with the value to use otherwise. *)
Definition last_elem {A} (l : list A) (d : A) : A := List.last l d.

(** [float(q)] truncated by [int]: towards zero. *)
Definition Qtrunc (q : Q) : Z :=
  if Qltb q 0 then Qceiling q else Qfloor q.

(** ** Helpers *)

Section Scoring.

(** [int(s)] and [float(s)] on a string: [None] stands for the [ValueError]
    of a string that is no literal. *)
Variable int_of_str : string -> option Z.
Variable float_of_str : string -> option Q.

(** [float(x)]; [None] when [float] raises ([TypeError], [ValueError]). *)
Definition py_float (x : Value) : option Q :=
  match x with
  | VBool b => Some (if b then 1 else 0)
  | VInt n => Some (inject_Z n)
  | VFloat q => Some q
  | VStr s => float_of_str s
  | VNone | VList _ | VDict _ => None
  end.

(** [int(x)]; [None] when [int] raises. *)
Definition py_int (x : Value) : option Z :=
  match x with
  | VBool b => Some (if b then 1 else 0)%Z
  | VInt n => Some n
  | VFloat q => Some (Qtrunc q)
  | VStr s => int_of_str s
  | VNone | VList _ | VDict _ => None
  end.

Definition safe_float (x : Value) (dflt : Q) : Q :=
  match x with
  | VNone => dflt
  | _ => default dflt (py_float x)
  end.

Definition safe_int (x : Value) (dflt : Z) : Z :=
  match x with
  | VNone => dflt
  | _ => default dflt (py_int x)
  end.

Definition clamp (x lo hi : Q) : Q := py_max lo (py_min hi x).

Definition get_last_n {A} (history : list A) (n : nat) : list A :=
  match history with
  | [] => []
  | _ => slice_last n history
  end.

(** [sum(xs)] *)
Definition py_sum (xs : list Q) : Q := fold_left Qplus xs 0.

(** [sum(s * w for s, w in zip(scores, weights))] *)
Definition dot (scores weights : list Q) : Q :=
  py_sum ((fun sw => sw.1 * sw.2) <$> zip scores weights).

Definition weighted_average (scores weights : list Q) : Result Q :=
  match scores with
  | [] => Ok 0
  | _ =>
      if negb (length scores =? length weights)%nat then Raise ValueError
      else
        let total_w := py_sum weights in
        if Qleb total_w 0 then Ok 0
        else Ok (dot scores weights / total_w)
  end.

(** [max(xs)]; an empty argument is a [ValueError]. *)
Definition py_max_list (xs : list Q) : Result Q :=
  match xs with
  | [] => Raise ValueError
  | x :: xs' => Ok (fold_left py_max xs' x)
  end.

Definition base_weights : list Q := [0.40; 0.25; 0.15; 0.12; 0.08].

Definition compute_weighted_recent_score (scores : list Q) : Result Q :=
  match scores with
  | [] => Ok 0
  | _ =>
      let base_weights := take (length scores) base_weights in
      let scores_newest_first := rev scores in
      wavg ← weighted_average scores_newest_first base_weights;
      max_score ← py_max_list scores;
      let final := 0.75 * wavg + 0.25 * max_score in
      Ok (clamp final 0 100)
  end.

Definition normalize_score (raw_points raw_max : Q) : Q :=
  if Qleb raw_max 0 then 0
  else
    let score := 100 * (raw_points / raw_max) in
    clamp score 0 100.

(** ** Entry scorers

    Each scorer is written as the source has it: [raw] is threaded through
    the field rules in source order, and the last line normalises it.  The
    accumulation is named [raw_<domain>_entry] so that the properties of the
    raw accumulator can be stated. *)

Definition raw_workspace_entry (ui : Value) : Result Z :=
  let raw := 0%Z in
  gp ← py_get ui "good_posture";
  let raw := if is_False gp then (raw + 18)%Z else raw in
  breaks ← get_label ui "breaks";
  let raw :=
    if (breaks =? "Some breaks")%string then (raw + 8)%Z
    else if (breaks =? "Few breaks")%string then (raw + 16)%Z
    else if (breaks =? "No breaks")%string then (raw + 24)%Z
    else raw in
  mh ← get_label ui "monitor_height";
  let raw :=
    if (mh =? "Slightly Below Eye Level")%string then (raw + 6)%Z
    else if (mh =? "Below Eye Level (Looking Down)")%string then (raw + 14)%Z
    else if (mh =? "Above Eye Level")%string then (raw + 10)%Z
    else raw in
  ls ← py_get ui "lumbar_support";
  let raw := if is_False ls then (raw + 10)%Z else raw in
  fp ← get_label ui "feet_position";
  let raw :=
    if (fp =? "Not Supported / Dangling")%string then (raw + 8)%Z
    else if (fp =? "Crossed / Tucked")%string then (raw + 6)%Z
    else raw in
  dev ← get_label ui "input_device";
  let raw :=
    if (dev =? "Standard Mouse")%string then (raw + 4)%Z
    else if (dev =? "Trackpad")%string then (raw + 10)%Z
    else raw in
  kb ← get_label ui "keyboard_type";
  let raw := if (kb =? "Laptop Keyboard")%string then (raw + 8)%Z else raw in
  ws ← get_label ui "wrist_support";
  let raw := if (ws =? "No")%string then (raw + 6)%Z else raw in
  ar ← get_label ui "armrests";
  let raw :=
    if (ar =? "Level with desk")%string then (raw + 2)%Z
    else if existsb (String.eqb ar) ["Too low"; "Too high"; "None"; "No"]%string
         then (raw + 6)%Z
    else raw in
  ead ← py_get ui "eat_at_desk";
  let raw := if is_True ead then (raw + 6)%Z else raw in
  noise ← get_label ui "noise_level";
  let raw :=
    if (noise =? "Hum/White Noise")%string then (raw + 3)%Z
    else if (noise =? "Distracting/Loud")%string then (raw + 10)%Z
    else raw in
  temp ← get_label ui "temperature";
  let raw :=
    if existsb (String.eqb temp) ["Cold"; "Hot"]%string then (raw + 6)%Z
    else raw in
  cl ← get_label ui "clutter";
  let raw :=
    if (cl =? "Average")%string then (raw + 3)%Z
    else if (cl =? "Cluttered")%string then (raw + 8)%Z
    else raw in
  Ok raw.

Definition score_workspace_entry (ui : Value) : Result Q :=
  raw ← raw_workspace_entry ui;
  let RAW_MAX := 100 in
  Ok (normalize_score (inject_Z raw) RAW_MAX).

(** The name [note_or_empty] is bound nowhere in the module (no definition,
    no import): looking it up, which a call does before it evaluates its
    argument, raises [NameError]. *)
Definition note_or_empty : Result (Value -> Result Value) :=
  Raise NameError.

Definition eye_symptom_map : gmap string Z :=
  list_to_map
    [ ("Dryness / Gritty feeling", 8%Z);
      ("Blurred Vision (end of day)", 10%Z);
      ("Headache (behind eyes)", 12%Z);
      ("Eye Twitching", 8%Z);
      ("Watery Eyes", 6%Z);
      ("Burning / Irritation", 8%Z);
      ("Difficulty focusing", 10%Z) ]%string.

Definition raw_eye_entry (ui : Value) : Result Z :=
  let raw := 0%Z in
  sl ← py_get ui "strain_level";
  let strain := safe_int sl 0 in
  let raw := (raw + strain * 4)%Z in
  (* ui.get("session_length") or note_or_empty(ui.get("session_length")) *)
  s1 ← py_get ui "session_length";
  s2 ← (if truthy s1 then Ok s1
        else f ← note_or_empty; arg ← py_get ui "session_length"; f arg);
  session ← py_strip s2;
  let raw :=
    if (session =? "1-2 hours")%string then (raw + 8)%Z
    else if (session =? "2-4 hours")%string then (raw + 16)%Z
    else if (session =? "4+ hours")%string then (raw + 24)%Z
    else raw in
  sy ← py_get ui "symptoms";
  let symptoms := py_or sy (VList []) in
  items ← py_iter symptoms;
  symptom_points ← sum_points eye_symptom_map items 0;
  let raw := (raw + Z.min symptom_points 30)%Z in
  lighting ← get_label ui "lighting";
  let raw :=
    if (lighting =? "Mixed")%string then (raw + 6)%Z
    else if (lighting =? "Dim")%string then (raw + 10)%Z
    else if (lighting =? "Harsh/Overhead")%string then (raw + 10)%Z
    else raw in
  bright ← get_label ui "screen_brightness";
  let raw :=
    if (bright =? "Brighter than room")%string then (raw + 8)%Z
    else if (bright =? "Too dim")%string then (raw + 6)%Z
    else raw in
  glare ← py_get ui "glare";
  let raw := if is_True glare then (raw + 10)%Z else raw in
  dc ← py_get ui "distance_check";
  let raw := if is_False dc then (raw + 6)%Z else raw in
  rule ← get_label ui "rule_20_20_20";
  let raw :=
    if (rule =? "Often")%string then (raw + 4)%Z
    else if (rule =? "Occasionally")%string then (raw + 10)%Z
    else if (rule =? "Never")%string then (raw + 16)%Z
    else raw in
  ud ← py_get ui "used_drops";
  let raw := if is_True ud then (raw - 2)%Z else raw in
  Ok raw.

Definition score_eye_entry (ui : Value) : Result Q :=
  raw ← raw_eye_entry ui;
  let RAW_MAX := 110 in
  Ok (normalize_score (inject_Z raw) RAW_MAX).

(** The [water_intake] ladder of [score_hydration_entry]. *)
Definition water_points (water : Z) : Z :=
  if (water <=? 2)%Z then 35
  else if (3 <=? water)%Z && (water <=? 4)%Z then 25
  else if (5 <=? water)%Z && (water <=? 6)%Z then 15
  else if (7 <=? water)%Z && (water <=? 9)%Z then 6
  else if (10 <=? water)%Z && (water <=? 13)%Z then 2
  else 0.

(** The [caffeine_intake] ladder of [score_hydration_entry]: equality tests
    between the two ends. *)
Definition caffeine_points (caffeine : Q) : Z :=
  if Qleb caffeine 1 then 0
  else if Qeqb caffeine 2 then 5
  else if Qeqb caffeine 3 then 10
  else if Qeqb caffeine 4 then 15
  else if Qleb 5 caffeine then 20
  else 0.

(** The [sugary_drinks] ladder of [score_hydration_entry]. *)
Definition sugary_points (sugary : Q) : Z :=
  if Qeqb sugary 0 then 0
  else if Qeqb sugary 1 then 5
  else if Qeqb sugary 2 then 10
  else if Qeqb sugary 3 then 15
  else if Qleb 4 sugary then 20
  else 0.

Definition hydration_symptom_map : gmap string Z :=
  list_to_map
    [ ("Dry Mouth/Lips", 8%Z);
      ("Headache", 10%Z);
      ("Dizziness", 12%Z);
      ("Fatigue", 8%Z) ]%string.

Definition raw_hydration_entry (ui : Value) : Result Z :=
  let raw := 0%Z in
  wi ← py_get ui "water_intake";
  let water := safe_int wi 0 in
  let raw := (raw + water_points water)%Z in
  ci ← py_get ui "caffeine_intake";
  let caffeine := safe_float ci 0 in
  let raw := (raw + caffeine_points caffeine)%Z in
  sd ← py_get ui "sugary_drinks";
  let sugary := safe_float sd 0 in
  let raw := (raw + sugary_points sugary)%Z in
  bd ← py_get ui "bottle_on_desk";
  let raw := if is_False bd then (raw + 6)%Z else raw in
  urine ← get_label ui "urine_color";
  let raw :=
    if (urine =? "Yellow (Okay)")%string then (raw + 6)%Z
    else if (urine =? "Dark Yellow")%string then (raw + 16)%Z
    else if (urine =? "Amber/Brown")%string then (raw + 28)%Z
    else raw in
  thirst ← get_label ui "thirst_level";
  let raw :=
    if (thirst =? "Mildly Thirsty")%string then (raw + 10)%Z
    else if (thirst =? "Very Thirsty / Parched")%string then (raw + 22)%Z
    else raw in
  sy ← py_get ui "symptoms";
  let symptoms := py_or sy (VList []) in
  items ← py_iter symptoms;
  symptom_points ← sum_points hydration_symptom_map items 0;
  let raw := (raw + Z.min symptom_points 20)%Z in
  Ok raw.

Definition score_hydration_entry (ui : Value) : Result Q :=
  raw ← raw_hydration_entry ui;
  let RAW_MAX := 100 in
  Ok (normalize_score (inject_Z raw) RAW_MAX).

(** [raw += pain * 4.5  # max 45]: what the [pain_level] field adds. *)
Definition pain_points (pain : Z) : Q := inject_Z pain * 4.5.

Definition raw_msk_entry (ui : Value) : Result Q :=
  let raw := 0 in
  pl ← py_get ui "pain_level";
  let pain := safe_int pl 0 in
  let raw := raw + pain_points pain in
  onset ← get_label ui "onset_timing";
  let raw :=
    if (onset =? "During Work")%string then raw + 10
    else if (onset =? "End of Workday")%string then raw + 14
    else if (onset =? "Morning / On waking")%string then raw + 18
    else raw in
  fa ← py_get ui "focus_area";
  let focus_area := py_or fa (VList []) in
  n_focus ← py_len focus_area;
  let raw := raw + inject_Z (Z.min (n_focus * 5) 20) in
  nature ← get_label ui "pain_nature";
  let raw :=
    if (nature =? "Mild Ache")%string then raw + 4
    else if (nature =? "Stiffness/Tightness")%string then raw + 10
    else if (nature =? "Sharp Pain")%string then raw + 16
    else if (nature =? "Numbness/Tingling")%string then raw + 22
    else raw in
  rom ← get_label ui "neck_rom";
  let raw :=
    if (rom =? "Limited (Stiff)")%string then raw + 10
    else if (rom =? "Painful Movement")%string then raw + 16
    else raw in
  seated ← get_label ui "seated_duration";
  let raw :=
    if (seated =? "1 hour")%string then raw + 8
    else if (seated =? "2 hours")%string then raw + 14
    else if (seated =? "3+ hours")%string then raw + 22
    else raw in
  ms ← py_get ui "morning_stiffness";
  let raw := if is_True ms then raw + 10 else raw in
  gp ← py_get ui "good_posture";
  let raw := if is_False gp then raw + 10 else raw in
  tr ← py_get ui "triggers";
  let triggers := py_or tr (VList []) in
  n_triggers ← py_len triggers;
  let raw := raw + inject_Z (Z.min (n_triggers * 4) 16) in
  iw ← py_get ui "impact_work";
  let raw := if is_True iw then raw + 10 else raw in
  isl ← py_get ui "impact_sleep";
  let raw := if is_True isl then raw + 12 else raw in
  rm ← py_get ui "relief_methods";
  let relief := py_or rm (VList []) in
  n_relief ← py_len relief;
  let raw := raw - inject_Z (Z.min (n_relief * 3) 9) in
  Ok raw.

Definition score_msk_entry (ui : Value) : Result Q :=
  raw ← raw_msk_entry ui;
  let RAW_MAX := 120 in
  Ok (normalize_score raw RAW_MAX).

Definition raw_baseline_entry (ui : Value) : Result Z :=
  let raw := 0%Z in
  h ← py_get ui "height";
  let height_cm := safe_float h 0 in
  w ← py_get ui "weight";
  let weight_kg := safe_float w 0 in
  let bmi :=
    if Qltb 0 height_cm && Qltb 0 weight_kg then
      let h_m := height_cm / 100 in
      weight_kg / (h_m * h_m)
    else 0 in
  let raw :=
    if Qleb 35 bmi then (raw + 32)%Z
    else if Qleb 30 bmi then (raw + 22)%Z
    else if Qleb 25 bmi then (raw + 10)%Z
    else raw in
  s ← py_get ui "bp_systolic";
  let sys := safe_float s 0 in
  d ← py_get ui "bp_diastolic";
  let dia := safe_float d 0 in
  let raw :=
    if Qleb 140 sys || Qleb 90 dia then (raw + 24)%Z
    else if Qleb 130 sys || Qleb 80 dia then (raw + 14)%Z
    else if Qleb 120 sys && Qltb dia 80 then (raw + 6)%Z
    else raw in
  r ← py_get ui "rhr";
  let rhr := safe_float r 0 in
  let raw :=
    if Qleb 100 rhr then (raw + 18)%Z
    else if Qleb 90 rhr then (raw + 12)%Z
    else if Qleb 80 rhr then (raw + 6)%Z
    else if Qltb rhr 60 && Qltb 0 rhr then (raw + 2)%Z
    else raw in
  activity ← get_label ui "activity_level";
  let raw :=
    if (activity =? "Sedentary")%string then (raw + 14)%Z
    else if (activity =? "Moderately active")%string then (raw + 4)%Z
    else raw in
  wc ← py_get ui "waist_cm";
  let waist := safe_float wc 0 in
  let raw :=
    if Qltb 0 waist then
      if Qleb 102 waist then (raw + 14)%Z
      else if Qleb 94 waist then (raw + 10)%Z
      else raw
    else raw in
  Ok raw.

Definition score_baseline_entry (ui : Value) : Result Q :=
  raw ← raw_baseline_entry ui;
  let RAW_MAX := 110 in
  Ok (normalize_score (inject_Z raw) RAW_MAX).

Definition raw_longitudinal_entry (ui : Value) : Result Z :=
  let raw := 0%Z in
  g ← py_get ui "glucose";
  let glucose := safe_float g 0 in
  let raw :=
    if Qleb 126 glucose then (raw + 24)%Z
    else if Qleb 100 glucose then (raw + 12)%Z
    else raw in
  hb ← py_get ui "hba1c";
  let hba1c := safe_float hb 0 in
  let raw :=
    if Qleb 6.5 hba1c then (raw + 28)%Z
    else if Qleb 5.7 hba1c then (raw + 14)%Z
    else raw in
  c ← py_get ui "cholesterol";
  let chol := safe_float c 0 in
  let raw :=
    if Qleb 240 chol then (raw + 20)%Z
    else if Qleb 200 chol then (raw + 10)%Z
    else raw in
  t ← py_get ui "triglycerides";
  let tg := safe_float t 0 in
  let raw :=
    if Qleb 500 tg then (raw + 30)%Z
    else if Qleb 200 tg then (raw + 20)%Z
    else if Qleb 150 tg then (raw + 10)%Z
    else raw in
  vd ← py_get ui "vit_d";
  let vit_d := safe_float vd 0 in
  let raw := if Qltb 0 vit_d && Qltb vit_d 20 then (raw + 10)%Z else raw in
  vb ← py_get ui "vit_b12";
  let vit_b12 := safe_float vb 0 in
  let raw := if Qltb 0 vit_b12 && Qltb vit_b12 200 then (raw + 10)%Z else raw in
  Ok raw.

Definition score_longitudinal_entry (ui : Value) : Result Q :=
  raw ← raw_longitudinal_entry ui;
  let RAW_MAX := 140 in
  Ok (normalize_score (inject_Z raw) RAW_MAX).

(** ** Trend penalty for the longitudinal tab *)

(** The ladder on the relative change. *)
Definition change_penalty (change : Q) : Q :=
  if Qleb 0.20 change then 15
  else if Qleb 0.10 change then 8
  else if Qleb change (-0.10) then -6
  else 0.

(** [values] oldest to newest; [values[-2]] and [values[-1]] are the first
    two elements of the reversed list. *)
Definition trend_penalty (values : list Q) : Q :=
  match rev values with
  | last :: prev :: _ =>
      if Qleb prev 0 then 0
      else
        let change := (last - prev) / prev in
        change_penalty change
  | _ => 0
  end.

(** The four series built by the loop over [history[-3:]]. *)
Fixpoint marker_series (rows : list Value) : Result (list Q * list Q * list Q * list Q) :=
  match rows with
  | [] => Ok ([], [], [], [])
  | row :: rows' =>
      ui ← py_get_d row "user_input" (VDict ∅);
      g ← py_get ui "glucose";
      hb ← py_get ui "hba1c";
      c ← py_get ui "cholesterol";
      t ← py_get ui "triglycerides";
      rest ← marker_series rows';
      let '(gs, hs, cs, ts) := rest in
      Ok (safe_float g 0 :: gs, safe_float hb 0 :: hs,
          safe_float c 0 :: cs, safe_float t 0 :: ts)
  end.

Definition longitudinal_with_trend (history : list Value) : Result Q :=
  match history with
  | [] => Ok 0
  | _ =>
      last ← py_get_d (last_elem history VNone) "user_input" (VDict ∅);
      latest_score ← score_longitudinal_entry last;
      series ← marker_series (slice_last 3 history);
      let '(glucose_vals, hba1c_vals, chol_vals, tg_vals) := series in
      let penalty := 0 in
      let penalty := penalty + trend_penalty glucose_vals in
      let penalty := penalty + trend_penalty hba1c_vals in
      let penalty := penalty + trend_penalty chol_vals in
      let penalty := penalty + trend_penalty tg_vals in
      let penalty := clamp penalty (-10) 15 in
      let final := 0.70 * latest_score + 0.30 * clamp (latest_score + penalty) 0 100 in
      Ok (clamp final 0 100)
  end.

(** ** Tab scores from a history *)

(** [row.get("user_input", {})] followed by the scorer. *)
Definition score_row (score_fn : Value -> Result Q) (row : Value) : Result Q :=
  ui ← py_get_d row "user_input" (VDict ∅);
  score_fn ui.

Definition tab_score_from_history (history : list Value)
    (score_fn : Value -> Result Q) (window : nat) : Result Q :=
  match history with
  | [] => Ok 0
  | _ =>
      let last_n := get_last_n history window in
      entry_scores ← mapM (score_row score_fn) last_n;
      compute_weighted_recent_score entry_scores
  end.

Definition workspace_score_from_history (history : list Value) : Result Q :=
  match history with
  | [] => Ok 0
  | _ =>
      let last_n := get_last_n history 3 in
      scores ← mapM (score_row score_workspace_entry) last_n;
      let scores_newest_first := rev scores in
      let weights := take (length scores_newest_first) [0.60; 0.30; 0.10] in
      avg ← weighted_average scores_newest_first weights;
      Ok (clamp avg 0 100)
  end.

Definition baseline_score_from_history (history : list Value) : Result Q :=
  match history with
  | [] => Ok 0
  | _ =>
      ui ← py_get_d (last_elem history VNone) "user_input" (VDict ∅);
      score_baseline_entry ui
  end.

(** ** Workday Health Index and global pressure *)

(** The literal [weights] of [compute_whi], in the order of the source. *)
Definition whi_weights : list (string * Q) :=
  [ ("mental", 0.22); ("sleep", 0.20); ("msk", 0.18); ("eye", 0.15);
    ("hydration", 0.10); ("workspace", 0.08); ("baseline", 0.04);
    ("longitudinal", 0.03) ]%string.

(** The loop [for k, w in weights.items()], on the pair [(total, total_w)]. *)
Definition whi_step (scores : gmap string Q) (acc : Q * Q) (kw : string * Q) : Q * Q :=
  let '(total, total_w) := acc in
  let '(k, w) := kw in
  (total + default 0 (scores !! k) * w, total_w + w).

Definition compute_whi (scores : gmap string Q) : Q :=
  let '(total, total_w) := fold_left (whi_step scores) whi_weights (0, 0) in
  if Qleb total_w 0 then 0
  else clamp (total / total_w) 0 100.

Definition apply_global_pressure (local_score whi pressure_factor : Q) : Q :=
  clamp (0.70 * local_score + 0.30 * (whi * pressure_factor)) 0 100.

(** ** Main entry point *)

(** [round(x)] to an integer, ties to the even neighbour. *)
Definition round_half_even (x : Q) : Z :=
  let f := Qfloor x in
  let r := x - inject_Z f in
  if Qltb r 0.5 then f
  else if Qltb 0.5 r then (f + 1)%Z
  else if Z.even f then f else (f + 1)%Z.

(** [round(x, 1)] *)
Definition py_round1 (x : Q) : Q := inject_Z (round_half_even (x * 10)) / 10.

(** [os.path.join(a, b)] on POSIX paths. *)
Definition path_join (a b : string) : string :=
  match b with
  | String "/"%char _ => b
  | _ =>
      if (a =? "")%string then b
      else if String.rev a is String "/"%char _ then (a +:+ b)%string
      else (a +:+ "/" +:+ b)%string
  end.

Definition FILES : gmap string string :=
  list_to_map
    [ ("eye", "eye_user_input.json");
      ("workspace", "workspace_user_input.json");
      ("hydration", "hydration_user_input.json");
      ("msk", "msk_user_input.json");
      ("baseline", "baseline_user_input.json");
      ("longitudinal", "longitudinal_user_input.json");
      ("mental", "mental_user_input.json");
      ("sleep", "sleep_user_input.json");
      ("productivity", "productivity_user_input.json") ]%string.

Record ScoreOutput : Type := {
  workday_health_index : Q;
  local_scores : gmap string Q;
  final_scores : gmap string Q
}.

(** The result of [load_json_history] on each path: the file system as the
    scoring core sees it (a missing or malformed file is the empty history). *)
Variable load_json_history : string -> list Value.

Definition compute_all_scores (data_dir : string) : Result ScoreOutput :=
  let histories : gmap string (list Value) :=
    (fun fname => load_json_history (path_join data_dir fname)) <$> FILES in
  let hist tab := default [] (histories !! tab) in
  let local_scores : gmap string Q := ∅ in
  eye ← tab_score_from_history (hist "eye") score_eye_entry 5;
  let local_scores := <["eye" := eye]> local_scores in
  hydration ← tab_score_from_history (hist "hydration") score_hydration_entry 5;
  let local_scores := <["hydration" := hydration]> local_scores in
  msk ← tab_score_from_history (hist "msk") score_msk_entry 5;
  let local_scores := <["msk" := msk]> local_scores in
  workspace ← workspace_score_from_history (hist "workspace");
  let local_scores := <["workspace" := workspace]> local_scores in
  baseline ← baseline_score_from_history (hist "baseline");
  let local_scores := <["baseline" := baseline]> local_scores in
  longitudinal ←
    (match hist "longitudinal" with
     | [] => Ok 0
     | _ => longitudinal_with_trend (hist "longitudinal")
     end);
  let local_scores := <["longitudinal" := longitudinal]> local_scores in
  mental ← tab_score_from_history (hist "mental") (fun ui => Ok 0) 5;
  let local_scores := <["mental" := mental]> local_scores in
  sleep ← tab_score_from_history (hist "sleep") (fun ui => Ok 0) 5;
  let local_scores := <["sleep" := sleep]> local_scores in
  productivity ← tab_score_from_history (hist "productivity") (fun ui => Ok 0) 5;
  let local_scores := <["productivity" := productivity]> local_scores in
  let whi := compute_whi local_scores in
  let final_scores :=
    (fun score => apply_global_pressure score whi 0.35) <$> local_scores in
  Ok {| workday_health_index := py_round1 whi;
        local_scores := py_round1 <$> local_scores;
        final_scores := py_round1 <$> final_scores |}.

End Scoring.

(** ** Weekly metrics: time windows and hydration compliance *)

(** A [datetime]: microseconds on the local time line for a naive one; the
    instant and the UTC offset for an offset-aware one. *)
Inductive DateTime : Type :=
| Naive (us : Z)
| Aware (us : Z) (utcoffset : Z).

Section Weekly.

Variable float_of_str : string -> option Q.

(** [datetime.fromisoformat] on a string; [None] stands for the [ValueError]
    of a string in no ISO format. *)
Variable fromisoformat : string -> option DateTime.

(** [timedelta(days=d)], in microseconds. *)
Definition timedelta_days (d : Z) : Z := (d * 86400000000)%Z.

(** [fromisoformat] of anything but a string raises, which the [except]
    clause turns into [None]. *)
Definition parse_ts (ts : Value) : option DateTime :=
  match ts with
  | VStr s => fromisoformat s
  | _ => None
  end.

(** [ts and ts >= cutoff]: [cutoff] is naive, like [datetime.now()], and
    comparing it with an offset-aware [ts] is a [TypeError]. *)
Definition in_last_days (now days : Z) (ts : option DateTime) : Result bool :=
  let cutoff := (now - timedelta_days days)%Z in
  match ts with
  | None => Ok false
  | Some (Naive t) => Ok (cutoff <=? t)%Z
  | Some (Aware _ _) => Raise TypeError
  end.

(** [ts and start <= ts < end] *)
Definition in_prev_week (now : Z) (ts : option DateTime) : Result bool :=
  let start := (now - timedelta_days 14)%Z in
  let end_ := (now - timedelta_days 7)%Z in
  match ts with
  | None => Ok false
  | Some (Naive t) => Ok ((start <=? t)%Z && (t <? end_)%Z)
  | Some (Aware _ _) => Raise TypeError
  end.

(** The loop shared by the two filters: [out.append(row)] for the rows whose
    parsed timestamp passes [keep]. *)
Fixpoint select_rows (keep : option DateTime -> Result bool) (history : list Value)
  : Result (list Value) :=
  match history with
  | [] => Ok []
  | row :: history' =>
      tsv ← py_get_d row "timestamp" (VStr "");
      let ts := parse_ts tsv in
      kept ← keep ts;
      out ← select_rows keep history';
      Ok (if kept : bool then row :: out else out)
  end.

(** [now] is the value [datetime.now()] returns inside the call. *)
Definition filter_last_days (now : Z) (history : list Value) (days : Z) : Result (list Value) :=
  select_rows (in_last_days now days) history.

Definition filter_prev_week (now : Z) (history : list Value) : Result (list Value) :=
  select_rows (in_prev_week now) history.

(** The two statements every [compute_*_metric] starts with,
    [this_week = filter_last_days(h, 7)] and [last_week = filter_prev_week(h)]:
    [now_this] and [now_prev] are the successive readings of the clock, one
    inside each call. *)
Definition metric_windows (now_this now_prev : Z) (history : list Value)
  : Result (list Value * list Value) :=
  this_week ← filter_last_days now_this history 7;
  last_week ← filter_prev_week now_prev history;
  Ok (this_week, last_week).

Definition hydration_compliant (ui : Value) : Result bool :=
  wi ← py_get ui "water_intake";
  let water := safe_float float_of_str wi 0 in
  urine ← get_label ui "urine_color";
  thirst ← get_label ui "thirst_level";
  if Qltb water 8 then Ok false
  else if existsb (String.eqb urine) ["Dark Yellow"; "Amber/Brown"]%string then Ok false
  else if (thirst =? "Very Thirsty / Parched")%string then Ok false
  else Ok true.

End Weekly.

(** ** Readers of plain decimal literals

    Instances of the string-conversion parameters for the examples: an
    optional sign followed by decimal digits. *)

Definition digit_of (c : ascii) : option Z :=
  let n := nat_of_ascii c in
  if (48 <=? n)%nat && (n <=? 57)%nat then Some (Z.of_nat (n - 48)) else None.

Fixpoint digits_go (s : string) (acc : Z) : option Z :=
  match s with
  | EmptyString => Some acc
  | String c s' =>
      match digit_of c with
      | Some d => digits_go s' (acc * 10 + d)%Z
      | None => None
      end
  end.

Definition digits (s : string) : option Z :=
  match s with
  | EmptyString => None
  | _ => digits_go s 0%Z
  end.

Definition decimal_int (s : string) : option Z :=
  match strip s with
  | String "-"%char s' => Z.opp <$> digits s'
  | String "+"%char s' => digits s'
  | s' => digits s'
  end.

Definition decimal_float (s : string) : option Q :=
  inject_Z <$> decimal_int s.

(** * Notions of the statements and sample data *)

(** [M] is a maximum of the window. *)
Definition is_max (M : Q) (scores : list Q) : Prop :=
  M ∈ scores /\ Forall (fun s => s <= M) scores.

(** [scores.get(k, 0.0)] *)
Definition score_of (scores : gmap string Q) (k : string) : Q :=
  default 0 (scores !! k).

(** The fixed-weight sum the loop of [compute_whi] accumulates. *)
Definition whi_total (scores : gmap string Q) : Q :=
  0 + score_of scores "mental" * 0.22 + score_of scores "sleep" * 0.20
    + score_of scores "msk" * 0.18 + score_of scores "eye" * 0.15
    + score_of scores "hydration" * 0.10 + score_of scores "workspace" * 0.08
    + score_of scores "baseline" * 0.04 + score_of scores "longitudinal" * 0.03.

(** Every weighted domain at local score 50. *)
Definition all_fifty : gmap string Q :=
  list_to_map ((fun kw : string * Q => (kw.1, 50)) <$> whi_weights).

(** A score on the normalised scale. *)
Definition in_range (v : Q) : Prop := 0 <= v /\ v <= 100.

(** A data directory whose only file holds one eye entry, with no
    [session_length]. *)
Definition eye_only_files (path : string) : list Value :=
  if (path =? "data/eye_user_input.json")%string
  then [VDict {[ "timestamp" := VStr "2026-02-10T01:30:54.842839";
                 "user_input" := VDict {[ "strain_level" := VInt 5 ]} ]}]
  else [].

(** A data directory with one hydration entry and one musculoskeletal entry. *)
Definition sample_hydration_row : Value :=
  VDict {[ "timestamp" := VStr "2026-02-10T01:30:54.842839";
           "user_input" := VDict {[ "water_intake" := VInt 1;
                                    "caffeine_intake" := VInt 6;
                                    "urine_color" := VStr "Amber/Brown";
                                    "thirst_level" := VStr "Very Thirsty / Parched" ]} ]}.

Definition sample_msk_row : Value :=
  VDict {[ "timestamp" := VStr "2026-02-10T01:31:20.000000";
           "user_input" := VDict {[ "pain_level" := VStr "10";
                                    "onset_timing" := VStr "Morning / On waking";
                                    "pain_nature" := VStr "Numbness/Tingling" ]} ]}.

Definition sample_files (path : string) : list Value :=
  if (path =? "data/hydration_user_input.json")%string then [sample_hydration_row]
  else if (path =? "data/msk_user_input.json")%string then [sample_msk_row]
  else [].

(** A hydration entry as the collector may write it: a numeric string, a
    padded label, an unanswered question. *)
Definition compliant_entry : Value :=
  VDict {[ "water_intake" := VStr "9";
           "urine_color" := VStr "Pale Yellow ";
           "thirst_level" := VNone ]}.

(** *** A reader of the timestamps the collector writes

    An instance of [fromisoformat] for the examples:
    [YYYY-MM-DDTHH:MM:SS], with an optional [.ffffff] and an optional UTC
    offset [+HH:MM]. *)

Definition days_from_civil (y m d : Z) : Z :=
  let y' := if (m <=? 2)%Z then (y - 1)%Z else y in
  let era := (y' / 400)%Z in
  let yoe := (y' - era * 400)%Z in
  let mp := if (2 <? m)%Z then (m - 3)%Z else (m + 9)%Z in
  let doy := ((153 * mp + 2) / 5 + d - 1)%Z in
  let doe := (yoe * 365 + yoe / 4 - yoe / 100 + doy)%Z in
  (era * 146097 + doe - 719468)%Z.

Definition field_at (s : string) (start len : nat) : option Z :=
  digits (String.substring start len s).

Definition iso_seconds (s : string) : option Z :=
  y ← field_at s 0 4; m ← field_at s 5 2; d ← field_at s 8 2;
  hh ← field_at s 11 2; mm ← field_at s 14 2; ss ← field_at s 17 2;
  Some (days_from_civil y m d * 86400 + hh * 3600 + mm * 60 + ss)%Z.

Definition iso_micros (s : string) : option Z :=
  secs ← iso_seconds s;
  if (String.length s =? 19)%nat then Some (secs * 1000000)%Z
  else if (String.length s =? 26)%nat then
    us ← field_at s 20 6; Some (secs * 1000000 + us)%Z
  else None.

(** The offset [+HH:MM] or [-HH:MM], in microseconds. *)
Definition iso_offset (s : string) : option Z :=
  hh ← field_at s 1 2; mm ← field_at s 4 2;
  let us := ((hh * 3600 + mm * 60) * 1000000)%Z in
  match s with
  | String "+"%char _ => Some us
  | String "-"%char _ => Some (- us)%Z
  | _ => None
  end.

(** A naive timestamp, or one followed by a UTC offset. *)
Definition iso_datetime (s : string) : option DateTime :=
  match iso_micros s with
  | Some us => Some (Naive us)
  | None =>
      let n := (String.length s - 6)%nat in
      us ← iso_micros (String.substring 0 n s);
      off ← iso_offset (String.substring n 6 s);
      Some (Aware (us - off) off)
  end.

(** A history row that carries only its timestamp. *)
Definition ts_row (ts : string) : Value :=
  VDict {[ "timestamp" := VStr ts; "user_input" := VDict ∅ ]}.

Definition sample_history : list Value :=
  [ ts_row "2026-01-20T08:00:00"; ts_row "2026-02-05T09:15:00";
    ts_row "not a date"; ts_row "2026-02-10T01:30:54.842839" ].

(** [now] is 2026-02-12T12:00:00. *)
Definition sample_now : Z := 1770897600000000.

(** A longitudinal row with two of the four markers. *)
Definition lab_row (glucose hba1c : Q) : Value :=
  VDict {[ "timestamp" := VStr "2026-02-10T01:30:54";
           "user_input" := VDict {[ "glucose" := VFloat glucose;
                                    "hba1c" := VFloat hba1c ]} ]}.

(** Glucose rises by 30% (penalty 15) and HbA1c by 10% (penalty 8): the sum 23
    is clamped to 15. *)
Definition sample_labs : list Value := [lab_row 90 5.0; lab_row 100 5.0; lab_row 130 5.5].

(** *** Reading a label, in the words of the rule

    [reads_as field label]: the field of the mapping ([None] when the key is
    absent) is read as [label], that is: an absent or falsy field as the
    empty string, a string as itself without its surrounding whitespace. *)

Fixpoint all_space (s : string) : bool :=
  match s with
  | EmptyString => true
  | String c s' => is_space c && all_space s'
  end.

(** A string with no whitespace at either end. *)
Inductive trimmed : string -> Prop :=
| trimmed_empty : trimmed ""
| trimmed_one a : is_space a = false -> trimmed (String a "")
| trimmed_ends a mid b :
    is_space a = false -> is_space b = false ->
    trimmed (String a (mid +:+ String b "")).

Inductive reads_as : option Value -> string -> Prop :=
| reads_absent : reads_as None ""
| reads_falsy v : truthy v = false -> reads_as (Some v) ""
| reads_str pre core post :
    all_space pre = true -> all_space post = true -> trimmed core ->
    reads_as (Some (VStr (pre +:+ core +:+ post))) core.

(** The compliance rule as C7 words it, on the fields of the mapping
    themselves. *)
Definition claimed_compliant (float_of_str : string -> option Q)
    (d : gmap string Value) : Prop :=
  8 <= safe_float float_of_str (default VNone (d !! "water_intake")) 0 /\
  d !! "urine_color" <> Some (VStr "Dark Yellow") /\
  d !! "urine_color" <> Some (VStr "Amber/Brown") /\
  d !! "thirst_level" <> Some (VStr "Very Thirsty / Parched").

(** Two hydration entries: a label with a leading blank, and a number where
    a label is expected. *)
Definition padded_label_entry : gmap string Value :=
  {[ "water_intake" := VInt 9; "urine_color" := VStr " Dark Yellow" ]}.

Definition numeric_label_entry : gmap string Value :=
  {[ "water_intake" := VInt 9; "urine_color" := VInt 3 ]}.

(** *** The longitudinal window, in the words of the rule *)

(** The field mapping of a history row, [row.get("user_input", {})], when
    the row is a dict and the mapping is one. *)
Definition entry_fields (row : Value) : option (gmap string Value) :=
  match row with
  | VDict r =>
      match r !! "user_input" with
      | None => Some ∅
      | Some (VDict u) => Some u
      | Some _ => None
      end
  | _ => None
  end.

(** The value of a marker in an entry: 0 when it is absent or unreadable. *)
Definition marker_value (float_of_str : string -> option Q)
    (marker : string) (u : gmap string Value) : Q :=
  safe_float float_of_str (default VNone (u !! marker)) 0.

(** The marker penalty as C2 words it: the change between the
    second-most-recent and the most recent of the non-zero values, through the
    ladder; fewer than two such values give 0. *)
Definition claimed_marker_penalty (values : list Q) : Q :=
  match rev (List.filter (fun v => negb (Qeqb v 0)) values) with
  | last :: prev :: _ => change_penalty ((last - prev) / prev)
  | _ => 0
  end.

Definition claimed_longitudinal_score (latest : Q) (gs hs cs ts : list Q) : Q :=
  let total := claimed_marker_penalty gs + claimed_marker_penalty hs
               + claimed_marker_penalty cs + claimed_marker_penalty ts in
  let penalty := clamp total (-10) 15 in
  clamp (0.70 * latest + 0.30 * clamp (latest + penalty) 0 100) 0 100.

(** A longitudinal row holding the given fields. *)
Definition lab_entry (fields : gmap string Value) : Value :=
  VDict {[ "timestamp" := VStr "2026-02-10T01:30:54"; "user_input" := VDict fields ]}.

(** Glucose 100, then 130, then an entry that reports HbA1c only. *)
Definition labs_glucose_then_absent : list Value :=
  [ lab_entry {[ "glucose" := VInt 100 ]}; lab_entry {[ "glucose" := VInt 130 ]};
    lab_entry {[ "hba1c" := VFloat 7.0 ]} ].

(** Glucose 100, an entry without any marker, then glucose 130. *)
Definition labs_glucose_gap : list Value :=
  [ lab_entry {[ "glucose" := VInt 100 ]}; lab_entry ∅;
    lab_entry {[ "glucose" := VInt 130 ]} ].

(** * Properties *)

(** ** Reflection of the boolean comparisons *)

Lemma Qleb_true x y : Qleb x y = true <-> x <= y.
Proof. apply Qle_bool_iff. Qed.

Lemma Qleb_false x y : Qleb x y = false <-> y < x.
Proof.
  unfold Qleb. rewrite <- not_true_iff_false, Qle_bool_iff.
  split; intros H; [apply Qnot_le_lt, H | apply Qlt_not_le, H].
Qed.

Lemma Qltb_true x y : Qltb x y = true <-> x < y.
Proof. unfold Qltb. rewrite negb_true_iff. apply Qleb_false. Qed.

Lemma Qltb_false x y : Qltb x y = false <-> y <= x.
Proof. unfold Qltb. rewrite negb_false_iff. apply Qleb_true. Qed.

Lemma Qeqb_true x y : Qeqb x y = true <-> x == y.
Proof. apply Qeq_bool_iff. Qed.

Lemma Qeqb_false x y : Qeqb x y = false <-> ~ x == y.
Proof. unfold Qeqb. rewrite <- not_true_iff_false, Qeq_bool_iff. tauto. Qed.

(** Case analysis on every comparison of the goal, leaving the facts as
    hypotheses for [lra]. *)
Ltac qcases :=
  repeat match goal with
  | |- context [Qleb ?a ?b] =>
      let H := fresh "Hc" in
      destruct (Qleb a b) eqn:H;
      [apply Qleb_true in H | apply Qleb_false in H]
  | |- context [Qltb ?a ?b] =>
      let H := fresh "Hc" in
      destruct (Qltb a b) eqn:H;
      [apply Qltb_true in H | apply Qltb_false in H]
  | |- context [Qeqb ?a ?b] =>
      let H := fresh "Hc" in
      destruct (Qeqb a b) eqn:H;
      [apply Qeqb_true in H | apply Qeqb_false in H]
  end.

(** ** [clamp] and [normalize_score] *)

Lemma py_min_spec a b : (b < a /\ py_min a b = b) \/ (a <= b /\ py_min a b = a).
Proof.
  unfold py_min. destruct (Qltb b a) eqn:E.
  - left. split; [apply Qltb_true, E | reflexivity].
  - right. split; [apply Qltb_false, E | reflexivity].
Qed.

Lemma py_max_spec a b : (a < b /\ py_max a b = b) \/ (b <= a /\ py_max a b = a).
Proof.
  unfold py_max. destruct (Qltb a b) eqn:E.
  - left. split; [apply Qltb_true, E | reflexivity].
  - right. split; [apply Qltb_false, E | reflexivity].
Qed.

(** Case analysis on the [min] and [max] of the goal, innermost first. *)
Ltac minmax_cases :=
  unfold clamp in *;
  repeat match goal with
  | |- context [py_min ?a ?b] =>
      let E := fresh "E" in
      destruct (py_min_spec a b) as [[? E] | [? E]]; rewrite E in *; clear E
  | |- context [py_max ?a ?b] =>
      let E := fresh "E" in
      destruct (py_max_spec a b) as [[? E] | [? E]]; rewrite E in *; clear E
  end.

Lemma clamp_range x lo hi : lo <= hi -> lo <= clamp x lo hi /\ clamp x lo hi <= hi.
Proof. intros H. minmax_cases; lra. Qed.

Lemma clamp_id x lo hi : lo <= x -> x <= hi -> clamp x lo hi == x.
Proof. intros H1 H2. minmax_cases; lra. Qed.

Lemma clamp_lower x lo hi m : m <= x -> m <= hi -> m <= clamp x lo hi.
Proof. intros H1 H2. minmax_cases; lra. Qed.

Lemma clamp_compat x y lo hi : x == y -> clamp x lo hi == clamp y lo hi.
Proof. intros H. minmax_cases; lra. Qed.

Lemma clamp_mono x y lo hi : x <= y -> clamp x lo hi <= clamp y lo hi.
Proof. intros H. minmax_cases; lra. Qed.

Lemma normalize_score_range raw raw_max :
  0 <= normalize_score raw raw_max /\ normalize_score raw raw_max <= 100.
Proof.
  unfold normalize_score. destruct (Qleb raw_max 0); [lra |].
  apply clamp_range. lra.
Qed.

(** ** Sums and maxima of lists *)

Lemma fold_left_Qplus_acc (l : list Q) (a : Q) :
  fold_left Qplus l a == a + fold_left Qplus l 0.
Proof.
  revert a. induction l as [|x l IH]; intros a; simpl.
  - lra.
  - rewrite (IH (a + x)), (IH (0 + x)). lra.
Qed.

Lemma py_sum_cons x (l : list Q) : py_sum (x :: l) == x + py_sum l.
Proof. unfold py_sum. simpl. rewrite fold_left_Qplus_acc. lra. Qed.

Lemma py_sum_nonneg (l : list Q) : Forall (fun x => 0 <= x) l -> 0 <= py_sum l.
Proof.
  induction 1 as [|x l Hx Hl IH].
  - unfold py_sum. simpl. lra.
  - rewrite py_sum_cons. lra.
Qed.

Lemma py_sum_pos x (l : list Q) :
  0 < x -> Forall (fun x => 0 <= x) l -> 0 < py_sum (x :: l).
Proof. intros Hx Hl. rewrite py_sum_cons. apply py_sum_nonneg in Hl. lra. Qed.

Lemma dot_nonneg (scores weights : list Q) :
  Forall (fun x => 0 <= x) scores -> Forall (fun x => 0 <= x) weights ->
  0 <= dot scores weights.
Proof.
  intros Hs Hw. unfold dot. apply py_sum_nonneg.
  revert weights Hw. induction Hs as [|s scores Hs0 Hs IH]; intros weights Hw.
  - constructor.
  - destruct Hw as [|w weights Hw0 Hw]; [constructor |].
    simpl. constructor; [| apply IH, Hw].
    simpl. apply Qmult_le_0_compat; assumption.
Qed.

Lemma fold_py_max_ge (l : list Q) (a : Q) :
  a <= fold_left py_max l a /\ Forall (fun x => x <= fold_left py_max l a) l.
Proof.
  revert a. induction l as [|x l IH]; intros a; simpl.
  - split; [lra | constructor].
  - destruct (IH (py_max a x)) as [H1 H2].
    assert (a <= py_max a x /\ x <= py_max a x) as [Ha Hx].
    { unfold py_max. qcases; lra. }
    split; [lra |]. constructor; [lra | exact H2].
Qed.

Lemma fold_py_max_elem (l : list Q) (a : Q) : fold_left py_max l a ∈ a :: l.
Proof.
  revert a. induction l as [|x l IH]; intros a; simpl.
  - apply list_elem_of_here.
  - specialize (IH (py_max a x)). apply elem_of_cons in IH as [H | H].
    + rewrite H. unfold py_max. destruct (Qltb a x).
      * apply list_elem_of_further, list_elem_of_here.
      * apply list_elem_of_here.
    + do 2 apply list_elem_of_further. exact H.
Qed.

Lemma py_max_list_is_max (scores : list Q) :
  scores <> [] -> exists M, py_max_list scores = Ok M /\ is_max M scores.
Proof.
  destruct scores as [|x l]; [congruence |]. intros _.
  exists (fold_left py_max l x). split; [reflexivity |]. split.
  - apply fold_py_max_elem.
  - destruct (fold_py_max_ge l x) as [H1 H2]. constructor; assumption.
Qed.

Lemma is_max_unique M M' (scores : list Q) :
  is_max M scores -> is_max M' scores -> M == M'.
Proof.
  intros [Hin Hle] [Hin' Hle']. rewrite Forall_forall in Hle, Hle'.
  apply Hle' in Hin. apply Hle in Hin'. lra.
Qed.

(** ** Weighted averaging *)

Lemma weighted_average_ok (scores weights : list Q) :
  scores <> [] -> length scores = length weights -> 0 < py_sum weights ->
  weighted_average scores weights = Ok (dot scores weights / py_sum weights).
Proof.
  intros Hne Hlen Hpos. destruct scores as [|s scores]; [congruence |].
  unfold weighted_average. rewrite Hlen, Nat.eqb_refl. simpl negb. cbv iota.
  apply Qleb_false in Hpos. rewrite Hpos. reflexivity.
Qed.

Lemma weighted_average_raise (scores weights : list Q) e :
  weighted_average scores weights = Raise e ->
  e = ValueError /\ scores <> [] /\ length scores <> length weights.
Proof.
  destruct scores as [|s scores]; [discriminate |]. unfold weighted_average.
  destruct (length (s :: scores) =? length weights)%nat eqn:E; simpl negb; cbv iota.
  - destruct (Qleb (py_sum weights) 0); discriminate.
  - intros [= <-]. apply Nat.eqb_neq in E. repeat split; [discriminate | exact E].
Qed.

Lemma weighted_average_raises_empty_or_equal (scores weights : list Q) :
  weighted_average scores weights = Raise ValueError \/
  (scores = [] \/ length scores = length weights).
Proof.
  destruct scores as [|s scores]; [right; left; reflexivity |].
  unfold weighted_average.
  destruct (Nat.eqb_spec (length (s :: scores)) (length weights)) as [E | E].
  - right; right; exact E.
  - left; reflexivity.
Qed.

Lemma base_weights_prefix (n : nat) :
  (1 <= n)%nat ->
  0 < py_sum (take n base_weights) /\ Forall (fun w => 0 <= w) (take n base_weights).
Proof.
  intros Hn.
  assert (Hall : Forall (fun w => 0 <= w) (take n base_weights)).
  { apply Forall_take. unfold base_weights. repeat constructor; discriminate. }
  split; [| exact Hall].
  destruct n as [|n]; [lia |]. simpl in *.
  apply py_sum_pos; [reflexivity |]. now inversion Hall.
Qed.

(** With an empty [scores] the function returns [0.0] before the lengths are
    compared. *)
Lemma weighted_average_empty_scores_returns :
  ~ (forall scores weights : list Q,
       raises (weighted_average scores weights) <-> length scores <> length weights).
Proof.
  intros H. destruct (H [] [0.40]) as [_ Hr].
  destruct Hr as [e He]; [simpl; lia | discriminate He].
Qed.

(** C4, as stated, fails on both counts.  The length check is not reached
    with an empty [scores]; and the check is not the only place where an error
    is raised rather than a default substituted: a number where a label is
    expected, or an eye entry without [session_length], makes a scorer
    raise. *)
Lemma weighted_average_claim_fails :
  ~ (forall scores weights : list Q,
       raises (weighted_average scores weights) <-> length scores <> length weights) /\
  score_workspace_entry (VDict {[ "breaks" := VInt 5 ]}) = Raise AttributeError /\
  score_eye_entry decimal_int (VDict ∅) = Raise NameError.
Proof.
  split; [exact weighted_average_empty_scores_returns |].
  split; vm_compute; reflexivity.
Qed.

(** C4 (amended). [weighted_average] raises exactly when [scores] is not empty
    and the two lists differ in length; the exception is the [ValueError] of
    its [raise] statement; an empty [scores] returns [0.0] for any weights. *)
Theorem weighted_average_raises_iff (scores weights : list Q) :
  (raises (weighted_average scores weights) <->
     scores <> [] /\ length scores <> length weights) /\
  (weighted_average scores weights = Raise ValueError <->
     scores <> [] /\ length scores <> length weights) /\
  (scores = [] -> weighted_average scores weights = Ok 0).
Proof.
  assert (Hr : scores <> [] /\ length scores <> length weights ->
               weighted_average scores weights = Raise ValueError).
  { intros [Hne Hlen]. destruct scores as [|s scores]; [congruence |].
    unfold weighted_average. apply Nat.eqb_neq in Hlen. now rewrite Hlen. }
  split; [| split].
  - split.
    + intros [e He]. apply weighted_average_raise in He. tauto.
    + intros H. exists ValueError. auto.
  - split; [| exact Hr].
    intros He. apply weighted_average_raise in He. tauto.
  - intros ->. reflexivity.
Qed.

(** ** Recency-weighted score with spike protection *)

(** C6. For a window of one to five entry scores, each in [0,100], the local
    score is [clamp(0.75 * wavg + 0.25 * M, 0, 100)], where [wavg] is the
    weighted average of the scores, newest first, under the matching prefix
    of the recency weights and [M] is the maximum of the window; it is at
    least [0.25 * M]. *)
Theorem compute_weighted_recent_score_spike (scores : list Q) :
  scores <> [] -> (length scores <= 5)%nat ->
  Forall (fun s => 0 <= s /\ s <= 100) scores ->
  exists wavg result,
    weighted_average (rev scores) (take (length scores) base_weights) = Ok wavg /\
    compute_weighted_recent_score scores = Ok result /\
    forall M, is_max M scores ->
      result == clamp (0.75 * wavg + 0.25 * M) 0 100 /\ 0.25 * M <= result.
Proof.
  intros Hne Hlen Hrange.
  set (ws := take (length scores) base_weights).
  assert (Hn : (1 <= length scores)%nat).
  { destruct scores; [congruence | simpl; lia]. }
  destruct (base_weights_prefix (length scores) Hn) as [Hpos Hws]. fold ws in Hpos, Hws.
  assert (Hwa : weighted_average (rev scores) ws = Ok (dot (rev scores) ws / py_sum ws)).
  { apply weighted_average_ok; [| | exact Hpos].
    - intros E. apply (f_equal length) in E. rewrite length_rev in E. simpl in E. lia.
    - unfold ws. rewrite length_rev, length_take. unfold base_weights. simpl. lia. }
  destruct (py_max_list_is_max scores Hne) as [M0 [HM0 Hmax0]].
  set (wavg := dot (rev scores) ws / py_sum ws) in *.
  assert (Hwavg : 0 <= wavg).
  { apply Qle_shift_div_l; [exact Hpos |].
    assert (0 <= dot (rev scores) ws); [| lra].
    apply dot_nonneg; [| exact Hws].
    apply Forall_rev. eapply Forall_impl; [exact Hrange |]. simpl. tauto. }
  exists wavg, (clamp (0.75 * wavg + 0.25 * M0) 0 100).
  split; [exact Hwa |]. split.
  - unfold compute_weighted_recent_score. destruct scores as [|s scores]; [congruence |].
    cbv beta iota zeta. fold ws. rewrite Hwa. cbn [mbind Result_bind].
    rewrite HM0. reflexivity.
  - intros M HM. assert (HMM : M0 == M) by (eapply is_max_unique; eassumption).
    destruct HM as [Hin _]. rewrite Forall_forall in Hrange.
    apply Hrange in Hin. split.
    + apply clamp_compat. lra.
    + apply clamp_lower; lra.
Qed.

(** The function is written for the window of [tab_score_from_history]: a
    sixth score leaves the weight list one short and the length check of
    [weighted_average] fires. *)
Lemma compute_weighted_recent_score_long (scores : list Q) :
  (5 < length scores)%nat -> compute_weighted_recent_score scores = Raise ValueError.
Proof.
  intros H. unfold compute_weighted_recent_score.
  destruct scores as [|s scores]; [simpl in H; lia |].
  destruct (weighted_average_raises_empty_or_equal
              (rev (s :: scores)) (take (length (s :: scores)) base_weights)) as [Hr | Hr].
  - rewrite Hr. reflexivity.
  - exfalso. destruct Hr as [Hr | Hr].
    + apply (f_equal length) in Hr. rewrite length_rev in Hr. discriminate Hr.
    + rewrite length_rev, length_take in Hr. unfold base_weights in Hr.
      simpl length in Hr, H. lia.
Qed.

Lemma get_last_n_length {A} (history : list A) (n : nat) :
  (0 < n)%nat -> (length (get_last_n history n) <= n)%nat.
Proof.
  intros Hn. unfold get_last_n, slice_last. destruct history as [|x l]; [simpl; lia |].
  destruct (Nat.eqb_spec n 0); [lia |]. rewrite length_drop. lia.
Qed.

Lemma compute_weighted_recent_score_spike_witness :
  exists wavg result,
    weighted_average (rev [20; 80; 40]) (take 3 base_weights) = Ok wavg /\
    compute_weighted_recent_score [20; 80; 40] = Ok result /\
    forall M, is_max M [20; 80; 40] ->
      result == clamp (0.75 * wavg + 0.25 * M) 0 100 /\ 0.25 * M <= result.
Proof.
  apply (compute_weighted_recent_score_spike [20; 80; 40]).
  - discriminate.
  - simpl. lia.
  - repeat constructor; discriminate.
Defined.

(** ** Reading fields of a dict *)

Lemma py_get_dict (d : gmap string Value) (k : string) :
  py_get (VDict d) k = Ok (default VNone (d !! k)).
Proof. reflexivity. Qed.

Lemma get_label_dict (d : gmap string Value) (k : string) :
  get_label (VDict d) k = py_strip (py_or (default VNone (d !! k)) (VStr "")).
Proof. reflexivity. Qed.

(** Step through the binds of a scorer: every sub-computation either raises,
    and the scorer raises with it, or returns. *)
Ltac step_binds :=
  repeat match goal with
  | |- context [mbind _ ?m] =>
      let E := fresh "E" in
      destruct m eqn:E; cbn [mbind Result_bind]
  end.

(** ** The eye scorer and its unbound helper *)

Lemma raw_eye_entry_falsy_session int_of_str (d : gmap string Value) :
  truthy (default VNone (d !! "session_length")) = false ->
  raw_eye_entry int_of_str (VDict d) = Raise NameError.
Proof.
  intros H. unfold raw_eye_entry. rewrite !py_get_dict. cbn [mbind Result_bind].
  rewrite H. reflexivity.
Qed.

(** C1 (the code departs from it). Whatever the other fields hold, an eye
    entry whose [session_length] is absent, [None] or the empty string makes
    [score_eye_entry] raise [NameError]: the fallback of the [or] calls
    [note_or_empty], a name the module never binds. *)
Theorem score_eye_entry_missing_session_raises int_of_str (d : gmap string Value) :
  score_eye_entry int_of_str (VDict (delete "session_length" d)) = Raise NameError /\
  score_eye_entry int_of_str (VDict (<["session_length" := VNone]> d)) = Raise NameError /\
  score_eye_entry int_of_str (VDict (<["session_length" := VStr ""]> d)) = Raise NameError /\
  score_eye_entry int_of_str (VDict ∅) = Raise NameError.
Proof.
  unfold score_eye_entry.
  repeat split; rewrite raw_eye_entry_falsy_session; try reflexivity.
  - rewrite lookup_delete_eq. reflexivity.
  - rewrite lookup_insert_eq. reflexivity.
  - rewrite lookup_insert_eq. reflexivity.
Qed.

(** The failure is not contained: the dashboard's entry point fails with it. *)
Lemma compute_all_scores_eye_entry_crashes int_of_str float_of_str :
  compute_all_scores int_of_str float_of_str eye_only_files "data" = Raise NameError.
Proof. vm_compute. reflexivity. Qed.

(** A label that is neither absent, [None] nor a string: a truthy value
    without [strip] raises [AttributeError]. *)
Lemma get_label_not_a_string (d : gmap string Value) k v :
  d !! k = Some v -> truthy v = true -> (forall s, v <> VStr s) ->
  get_label (VDict d) k = Raise AttributeError.
Proof.
  intros Hk Ht Hs. rewrite get_label_dict, Hk. unfold py_or. simpl default.
  rewrite Ht. destruct v; try reflexivity. now destruct (Hs s).
Qed.

(** The strain rule, [raw += strain * 4  # max 40], multiplies without a cap
    as the pain rule does: [strain_level = 20] adds 80. *)
Lemma strain_level_20_adds_80 int_of_str :
  raw_eye_entry int_of_str
    (VDict {[ "strain_level" := VInt 20; "session_length" := VStr "1-2 hours" ]})
  = Ok 88%Z.
Proof. vm_compute. reflexivity. Qed.

(** ** The pain rule of the musculoskeletal scorer *)

Lemma pain_points_above_cap (pain : Z) : (10 < pain)%Z -> 45 < pain_points pain.
Proof.
  intros H. unfold pain_points.
  assert (10 < inject_Z pain) by (rewrite (Zlt_Qlt 10 pain) in H; exact H).
  lra.
Qed.

(** C3 (the code departs from it). [pain_level = 20] adds [20 * 4.5 = 90] to
    the raw accumulator, not [min(90, 45) = 45]: the rule multiplies and has
    no cap. *)
Theorem pain_level_20_adds_90 :
  pain_points 20 == 90 /\
  ~ pain_points 20 == Qmin (inject_Z 20 * 4.5) 45 /\
  forall int_of_str,
    returns (raw_msk_entry int_of_str (VDict {["pain_level" := VInt 20]}))
            (fun raw => raw == 90) /\
    returns (score_msk_entry int_of_str (VDict {["pain_level" := VInt 20]}))
            (fun score => score == 75).
Proof.
  split; [reflexivity |]. split; [intros H; vm_compute in H; discriminate |].
  intros int_of_str. split; eexists; (split; [vm_compute; reflexivity | reflexivity]).
Qed.

(** ** The caffeine ladder of the hydration scorer *)

Lemma caffeine_points_gap (v : Q) :
  1 < v -> v < 5 -> ~ v == 2 -> ~ v == 3 -> ~ v == 4 -> caffeine_points v = 0%Z.
Proof.
  intros H1 H5 H2 H3 H4. unfold caffeine_points.
  qcases; first [reflexivity | contradiction | exfalso; lra].
Qed.

(** What [raw_hydration_entry] computes once [caffeine_intake] has been read:
    the entry's raw points are those of the entry without the field, plus the
    points of the ladder. *)
Lemma raw_hydration_entry_caffeine int_of_str float_of_str (d : gmap string Value) (v : Q) :
  raw_hydration_entry int_of_str float_of_str (VDict (<["caffeine_intake" := VFloat v]> d)) =
  (raw ← raw_hydration_entry int_of_str float_of_str (VDict (delete "caffeine_intake" d));
   Ok (raw + caffeine_points v)%Z).
Proof.
  unfold raw_hydration_entry. rewrite !get_label_dict, !py_get_dict.
  rewrite lookup_insert_eq, lookup_delete_eq.
  rewrite !lookup_insert_ne, !lookup_delete_ne by discriminate.
  cbn [mbind Result_bind default from_option id].
  change (safe_float float_of_str (VFloat v) 0) with v.
  change (caffeine_points (safe_float float_of_str VNone 0)) with 0%Z.
  step_binds; try reflexivity. f_equal.
  repeat match goal with
  | |- context [if ?b then _ else _] => destruct b
  end; lia.
Qed.

(** C10. A [caffeine_intake] strictly between 1 and 5 that is none of 2, 3, 4
    adds nothing to the raw accumulator, whatever the other fields hold, while
    2 adds 5 points; so the hydration score is not monotone in
    [caffeine_intake] (2.5 cups score lower than 2). *)
Theorem caffeine_between_steps_adds_nothing (v : Q) :
  1 < v -> v < 5 -> ~ v == 2 -> ~ v == 3 -> ~ v == 4 ->
  caffeine_points v = 0%Z /\
  caffeine_points 2 = 5%Z /\
  (forall int_of_str float_of_str (d : gmap string Value),
     raw_hydration_entry int_of_str float_of_str
       (VDict (<["caffeine_intake" := VFloat v]> d)) =
     (raw ← raw_hydration_entry int_of_str float_of_str
              (VDict (delete "caffeine_intake" d));
      Ok (raw + 0)%Z) /\
     raw_hydration_entry int_of_str float_of_str
       (VDict (<["caffeine_intake" := VFloat 2]> d)) =
     (raw ← raw_hydration_entry int_of_str float_of_str
              (VDict (delete "caffeine_intake" d));
      Ok (raw + 5)%Z)) /\
  (forall int_of_str float_of_str,
   exists a b sa sb,
     a <= b /\
     score_hydration_entry int_of_str float_of_str
       (VDict {["caffeine_intake" := VFloat a]}) = Ok sa /\
     score_hydration_entry int_of_str float_of_str
       (VDict {["caffeine_intake" := VFloat b]}) = Ok sb /\
     sb < sa).
Proof.
  intros H1 H5 H2 H3 H4.
  pose proof (caffeine_points_gap v H1 H5 H2 H3 H4) as Hgap.
  split; [exact Hgap |]. split; [reflexivity |]. split.
  - intros int_of_str float_of_str d.
    rewrite !raw_hydration_entry_caffeine, Hgap. split; reflexivity.
  - intros int_of_str float_of_str. exists 2, 2.5. do 2 eexists.
    split; [discriminate |].
    split; [vm_compute; reflexivity |].
    split; [vm_compute; reflexivity | reflexivity].
Qed.

Lemma caffeine_between_steps_adds_nothing_witness :
  caffeine_points 2.5 = 0%Z /\ caffeine_points 2 = 5%Z.
Proof.
  destruct (caffeine_between_steps_adds_nothing 2.5) as [H0 [H2 _]];
    try reflexivity; try discriminate.
  split; [exact H0 | exact H2].
Defined.

(** ** The Workday Health Index *)

Lemma whi_weights_sum : py_sum (whi_weights.*2) == 1.
Proof. reflexivity. Qed.

Lemma compute_whi_unfold (scores : gmap string Q) :
  compute_whi scores =
  clamp (whi_total scores / (0 + 0.22 + 0.20 + 0.18 + 0.15 + 0.10 + 0.08 + 0.04 + 0.03)) 0 100.
Proof. reflexivity. Qed.

Lemma compute_whi_formula (scores : gmap string Q) :
  compute_whi scores == clamp (whi_total scores) 0 100.
Proof.
  rewrite compute_whi_unfold. apply clamp_compat.
  assert (H : 0 + 0.22 + 0.20 + 0.18 + 0.15 + 0.10 + 0.08 + 0.04 + 0.03 == 1)
    by reflexivity.
  rewrite H. field.
Qed.

Lemma compute_whi_range (scores : gmap string Q) :
  0 <= compute_whi scores /\ compute_whi scores <= 100.
Proof. rewrite compute_whi_unfold. apply clamp_range. discriminate. Qed.

Lemma score_of_delete_insert (scores : gmap string Q) (k k' : string) :
  score_of (delete k scores) k' = score_of (<[k := 0]> scores) k'.
Proof.
  unfold score_of. destruct (decide (k = k')) as [-> | Hne].
  - rewrite lookup_delete_eq, lookup_insert_eq. reflexivity.
  - rewrite lookup_delete_ne, lookup_insert_ne by exact Hne. reflexivity.
Qed.

(** C5. The eight fixed weights sum to 1; when each weighted domain has local
    score 50 the index is 50; a domain missing from the score map counts as
    one present with score 0; and the index is the weighted sum clamped to
    [0,100], for every score map. *)
Theorem compute_whi_fixed_weights (scores : gmap string Q) :
  Forall (fun kw => exists v, scores !! kw.1 = Some v /\ v == 50) whi_weights ->
  py_sum (whi_weights.*2) == 1 /\
  compute_whi scores == 50 /\
  (forall (any : gmap string Q) (k : string),
     compute_whi (delete k any) = compute_whi (<[k := 0]> any)) /\
  (forall any : gmap string Q,
     compute_whi any == clamp (whi_total any) 0 100 /\
     0 <= compute_whi any /\ compute_whi any <= 100).
Proof.
  intros H50. split; [exact whi_weights_sum |]. split; [| split].
  - rewrite compute_whi_formula.
    assert (Hk : forall k w, (k, w) ∈ whi_weights -> score_of scores k == 50).
    { intros k w Hin. rewrite Forall_forall in H50.
      destruct (H50 _ Hin) as [v [Hv Hv50]]. unfold score_of. simpl in Hv.
      rewrite Hv. exact Hv50. }
    assert (Ht : whi_total scores == 50).
    { unfold whi_total.
      rewrite (Hk "mental" 0.22), (Hk "sleep" 0.20), (Hk "msk" 0.18),
        (Hk "eye" 0.15), (Hk "hydration" 0.10), (Hk "workspace" 0.08),
        (Hk "baseline" 0.04), (Hk "longitudinal" 0.03);
        [reflexivity | unfold whi_weights; set_solver ..]. }
    rewrite (clamp_compat _ 50 0 100 Ht). reflexivity.
  - intros any k. rewrite !compute_whi_unfold. unfold whi_total.
    rewrite !score_of_delete_insert. reflexivity.
  - intros any. split; [apply compute_whi_formula | apply compute_whi_range].
Qed.

Lemma compute_whi_fixed_weights_witness : compute_whi all_fifty == 50.
Proof.
  apply (compute_whi_fixed_weights all_fifty).
  unfold whi_weights. repeat constructor; exists 50; split; reflexivity.
Defined.

(** ** Ranges of the local scores *)

Lemma in_range_0 : in_range 0.
Proof. split; discriminate. Qed.

Lemma in_range_clamp x : in_range (clamp x 0 100).
Proof. apply clamp_range. discriminate. Qed.

Create HintDb ranges.
#[local] Hint Resolve in_range_0 in_range_clamp : ranges.

Lemma compute_weighted_recent_score_range (scores : list Q) v :
  compute_weighted_recent_score scores = Ok v -> in_range v.
Proof.
  unfold compute_weighted_recent_score. destruct scores as [|s scores].
  - intros [= <-]. auto with ranges.
  - step_binds; intros [= <-]; auto with ranges.
Qed.

Section Ranges.

Variable int_of_str : string -> option Z.
Variable float_of_str : string -> option Q.

Lemma tab_score_from_history_range history score_fn window v :
  tab_score_from_history history score_fn window = Ok v -> in_range v.
Proof.
  unfold tab_score_from_history. destruct history as [|row history].
  - intros [= <-]. auto with ranges.
  - step_binds; [| discriminate]. apply compute_weighted_recent_score_range.
Qed.

Lemma workspace_score_from_history_range history v :
  workspace_score_from_history history = Ok v -> in_range v.
Proof.
  unfold workspace_score_from_history. destruct history as [|row history].
  - intros [= <-]. auto with ranges.
  - step_binds; intros [= <-]; auto with ranges.
Qed.

Lemma baseline_score_from_history_range history v :
  baseline_score_from_history float_of_str history = Ok v -> in_range v.
Proof.
  unfold baseline_score_from_history, score_baseline_entry.
  destruct history as [|row history].
  - intros [= <-]. auto with ranges.
  - step_binds; intros [= <-]. apply normalize_score_range.
Qed.

Lemma longitudinal_with_trend_range history v :
  longitudinal_with_trend float_of_str history = Ok v -> in_range v.
Proof.
  unfold longitudinal_with_trend. destruct history as [|row history].
  - intros [= <-]. auto with ranges.
  - step_binds; try discriminate.
    destruct a1 as [[[gs hs] cs] ts]. intros [= <-]. auto with ranges.
Qed.

End Ranges.

(** ** Rounding to one decimal *)

Lemma round_half_even_le (x : Q) (n : Z) :
  x <= inject_Z n -> (round_half_even x <= n)%Z.
Proof.
  intros H. unfold round_half_even.
  assert (Hf : (Qfloor x <= n)%Z).
  { rewrite <- (Qfloor_Z n). apply Qfloor_resp_le, H. }
  pose proof (Qfloor_le x) as Hfx.
  destruct (Z.eq_dec (Qfloor x) n) as [Heq | Hne].
  - rewrite Heq in *.
    assert (Hr : Qltb (x - inject_Z n) 0.5 = true) by (apply Qltb_true; lra).
    rewrite Hr. lia.
  - destruct (Qltb (x - inject_Z (Qfloor x)) 0.5); [lia |].
    destruct (Qltb 0.5 (x - inject_Z (Qfloor x))); [lia |].
    destruct (Z.even (Qfloor x)); lia.
Qed.

Lemma py_round1_le (x : Q) (n : Z) :
  x <= inject_Z n / 10 -> py_round1 x <= inject_Z n / 10.
Proof.
  intros H. unfold py_round1.
  assert (Hx : x * 10 <= inject_Z n).
  { assert (E : inject_Z n / 10 * 10 == inject_Z n) by field.
    assert (x * 10 <= inject_Z n / 10 * 10); [| lra].
    apply Qmult_le_compat_r; [exact H | discriminate]. }
  apply round_half_even_le in Hx. rewrite Zle_Qle in Hx.
  apply Qmult_le_compat_r; [exact Hx | discriminate].
Qed.

(** ** Global pressure *)

Lemma apply_global_pressure_linear (local_score whi : Q) :
  in_range local_score -> in_range whi ->
  apply_global_pressure local_score whi 0.35 == 0.70 * local_score + 0.105 * whi.
Proof.
  intros [Hl0 Hl1] [Hw0 Hw1]. unfold apply_global_pressure.
  rewrite clamp_id; lra.
Qed.

Lemma py_round1_le_ceiling (x : Q) : x <= 80.5 -> py_round1 x <= 80.5.
Proof.
  intros H. assert (E : inject_Z 805 / 10 == 80.5) by reflexivity.
  rewrite <- E in *. apply py_round1_le, H.
Qed.

Lemma final_score_le_ceiling (local_score whi : Q) :
  in_range local_score -> in_range whi ->
  py_round1 (apply_global_pressure local_score whi 0.35) <= 80.5.
Proof.
  intros Hl Hw. apply py_round1_le_ceiling.
  rewrite apply_global_pressure_linear by assumption.
  destruct Hl, Hw. lra.
Qed.

(** C9. For a local score and an index both in [0,100], the final score under
    pressure factor 0.35 is [0.70 * local + 0.105 * whi]: the clamp changes
    nothing, the result is at least [0.70 * local] and at most 80.5.  Every
    final score in the output of [compute_all_scores] is at most 80.5. *)
Theorem apply_global_pressure_ceiling (local_score whi : Q) :
  0 <= local_score /\ local_score <= 100 ->
  0 <= whi /\ whi <= 100 ->
  apply_global_pressure local_score whi 0.35 == 0.70 * local_score + 0.105 * whi /\
  0.70 * local_score <= apply_global_pressure local_score whi 0.35 /\
  apply_global_pressure local_score whi 0.35 <= 80.5 /\
  (forall int_of_str float_of_str load_json_history data_dir out,
     compute_all_scores int_of_str float_of_str load_json_history data_dir = Ok out ->
     forall tab v, final_scores out !! tab = Some v -> v <= 80.5).
Proof.
  intros Hl Hw.
  pose proof (apply_global_pressure_linear local_score whi Hl Hw) as Hlin.
  destruct Hl as [Hl0 Hl1], Hw as [Hw0 Hw1].
  split; [exact Hlin |]. split; [lra |]. split; [lra |].
  intros int_of_str float_of_str load data_dir out. unfold compute_all_scores.
  step_binds; try discriminate. intros [= <-] tab v. cbn [final_scores].
  set (whi' := compute_whi _).
  assert (Hwhi : in_range whi') by apply compute_whi_range.
  rewrite <- map_fmap_compose, lookup_fmap.
  repeat match goal with
  | H : tab_score_from_history _ _ _ = Ok _ |- _ =>
      apply tab_score_from_history_range in H
  | H : workspace_score_from_history _ = Ok _ |- _ =>
      apply workspace_score_from_history_range in H
  | H : baseline_score_from_history _ _ = Ok _ |- _ =>
      apply baseline_score_from_history_range in H
  end.
  assert (Hlong : in_range a4).
  { destruct (default [] _) in E4.
    - injection E4 as <-. apply in_range_0.
    - eapply longitudinal_with_trend_range, E4. }
  intros Hv. apply fmap_Some in Hv as [s [Hs ->]]. unfold compose.
  apply final_score_le_ceiling; [| exact Hwhi]. clear Hwhi. clearbody whi'.
  repeat (apply lookup_insert_Some in Hs as [[_ <-] | [_ Hs]]; [assumption |]).
  rewrite lookup_empty in Hs. discriminate.
Qed.

Lemma apply_global_pressure_ceiling_witness :
  apply_global_pressure 100 100 0.35 == 0.70 * 100 + 0.105 * 100 /\
  apply_global_pressure 100 100 0.35 <= 80.5 /\
  exists out v,
    compute_all_scores decimal_int decimal_float sample_files "data" = Ok out /\
    final_scores out !! "hydration" = Some v /\ v <= 80.5.
Proof.
  destruct (apply_global_pressure_ceiling 100 100) as (Hlin & _ & Hle & Hall).
  - split; discriminate.
  - split; discriminate.
  - split; [exact Hlin |]. split; [exact Hle |].
    destruct (compute_all_scores decimal_int decimal_float sample_files "data")
      as [out | e] eqn:Hrun; [| vm_compute in Hrun; discriminate Hrun].
    destruct (final_scores out !! "hydration") as [v |] eqn:Hv.
    + exists out, v. split; [reflexivity |]. split; [exact Hv |].
      eapply Hall; [exact Hrun | exact Hv].
    + exfalso. revert Hv. generalize Hrun. vm_compute. intros [= <-]. discriminate.
Defined.

(** ** Hydration compliance *)

(** When a label can be read: the field is absent, [None], or a string. *)
Lemma get_label_absent (d : gmap string Value) k :
  d !! k = None -> get_label (VDict d) k = Ok ""%string.
Proof. intros H. rewrite get_label_dict, H. reflexivity. Qed.

Lemma get_label_None (d : gmap string Value) k :
  d !! k = Some VNone -> get_label (VDict d) k = Ok ""%string.
Proof. intros H. rewrite get_label_dict, H. reflexivity. Qed.

Lemma get_label_str (d : gmap string Value) k s :
  d !! k = Some (VStr s) -> get_label (VDict d) k = Ok (strip s).
Proof.
  intros H. rewrite get_label_dict, H. unfold py_or. simpl.
  destruct (String.eqb_spec s ""); [subst |]; reflexivity.
Qed.

Lemma not_elem_of_pair (x a b : string) : x ∉ [a; b] <-> x <> a /\ x <> b.
Proof.
  rewrite !not_elem_of_cons. split.
  - intros (Ha & Hb & _). split; assumption.
  - intros [Ha Hb]. repeat split; [assumption .. | apply not_elem_of_nil].
Qed.

(** *** [strip] removes the whitespace around a trimmed core *)

Lemma lstrip_all_space (s : string) : all_space s = true -> lstrip s = ""%string.
Proof.
  induction s as [|c s IH]; simpl; [reflexivity |].
  intros H. apply andb_true_iff in H as [Hc Hs]. rewrite Hc. apply IH, Hs.
Qed.

Lemma lstrip_app_all_space (pre s : string) :
  all_space pre = true -> lstrip (pre +:+ s) = lstrip s.
Proof.
  induction pre as [|c pre IH]; simpl; [reflexivity |].
  intros H. apply andb_true_iff in H as [Hc Hs]. rewrite Hc. apply IH, Hs.
Qed.

Lemma rstrip_all_space (s : string) : all_space s = true -> rstrip s = ""%string.
Proof.
  induction s as [|c s IH]; simpl; [reflexivity |].
  intros H. apply andb_true_iff in H as [Hc Hs]. rewrite (IH Hs), Hc. reflexivity.
Qed.

Lemma rstrip_app_all_space (s post : string) :
  all_space post = true -> rstrip (s +:+ post) = rstrip s.
Proof.
  intros Hpost. induction s as [|c s IH]; simpl.
  - apply rstrip_all_space, Hpost.
  - rewrite IH. reflexivity.
Qed.

Lemma rstrip_ends_nonspace (mid : string) (b : ascii) :
  is_space b = false -> rstrip (mid +:+ String b "") = (mid +:+ String b "")%string.
Proof.
  intros Hb. induction mid as [|c mid IH]; simpl.
  - rewrite Hb. reflexivity.
  - rewrite IH. destruct mid; simpl; rewrite andb_false_r; reflexivity.
Qed.

Lemma rstrip_trimmed (core : string) : trimmed core -> rstrip core = core.
Proof.
  intros [| a Ha | a mid b Ha Hb]; simpl.
  - reflexivity.
  - rewrite Ha. reflexivity.
  - rewrite rstrip_ends_nonspace by exact Hb. rewrite Ha. reflexivity.
Qed.

Lemma strip_padded (pre core post : string) :
  all_space pre = true -> all_space post = true -> trimmed core ->
  strip (pre +:+ core +:+ post) = core.
Proof.
  intros Hpre Hpost Hcore. unfold strip. rewrite lstrip_app_all_space by exact Hpre.
  destruct Hcore as [| a Ha | a mid b Ha Hb].
  - simpl. rewrite lstrip_all_space by exact Hpost. reflexivity.
  - simpl lstrip. rewrite Ha.
    change (String a (""%string +:+ post)) with (String a "" +:+ post)%string.
    rewrite rstrip_app_all_space by exact Hpost.
    apply rstrip_trimmed. constructor. exact Ha.
  - simpl lstrip. rewrite Ha.
    change (String a ((mid +:+ String b "") +:+ post))
      with (String a (mid +:+ String b "") +:+ post)%string.
    rewrite rstrip_app_all_space by exact Hpost.
    apply rstrip_trimmed. constructor; assumption.
Qed.

Lemma reads_as_get_label (d : gmap string Value) (k label : string) :
  reads_as (d !! k) label -> get_label (VDict d) k = Ok label.
Proof.
  intros H. remember (d !! k) as field eqn:Hk. symmetry in Hk.
  destruct H as [| v Hv | pre core post Hpre Hpost Hcore].
  - apply get_label_absent, Hk.
  - rewrite get_label_dict, Hk. unfold py_or. simpl default. rewrite Hv. reflexivity.
  - rewrite (get_label_str d k (pre +:+ core +:+ post)) by exact Hk.
    f_equal. apply strip_padded; assumption.
Qed.

(** C7, as stated, fails.  A label is compared after its surrounding
    whitespace is removed: with [" Dark Yellow"] the field itself is not in
    the set, yet the result is [False].  And a number where a label is
    expected makes [.strip()] raise, so nothing is returned although the three
    conditions hold. *)
Lemma hydration_compliant_not_on_raw_fields :
  (claimed_compliant decimal_float padded_label_entry /\
   hydration_compliant decimal_float (VDict padded_label_entry) = Ok false) /\
  (claimed_compliant decimal_float numeric_label_entry /\
   hydration_compliant decimal_float (VDict numeric_label_entry) = Raise AttributeError) /\
  ~ (forall d : gmap string Value,
       hydration_compliant decimal_float (VDict d) = Ok true <->
       claimed_compliant decimal_float d).
Proof.
  assert (Hp : claimed_compliant decimal_float padded_label_entry).
  { unfold claimed_compliant. repeat split; try discriminate.
    all: vm_compute; discriminate. }
  assert (Hn : claimed_compliant decimal_float numeric_label_entry).
  { unfold claimed_compliant. repeat split; try discriminate.
    all: vm_compute; discriminate. }
  split; [split; [exact Hp | vm_compute; reflexivity] |].
  split; [split; [exact Hn | vm_compute; reflexivity] |].
  intros H. apply H in Hn. vm_compute in Hn. discriminate Hn.
Qed.

(** C7 (amended). On a mapping whose [urine_color] and [thirst_level] are
    each absent, falsy or a string, [hydration_compliant] returns a boolean,
    and it returns [True] exactly when the water intake read by [safe_float]
    (0 when absent or unreadable) is at least 8, the urine colour without its
    surrounding whitespace is neither "Dark Yellow" nor "Amber/Brown", and the
    thirst level without its surrounding whitespace is not
    "Very Thirsty / Parched". *)
Theorem hydration_compliant_iff float_of_str (d : gmap string Value)
    (urine thirst : string) :
  reads_as (d !! "urine_color") urine ->
  reads_as (d !! "thirst_level") thirst ->
  (exists b, hydration_compliant float_of_str (VDict d) = Ok b) /\
  (hydration_compliant float_of_str (VDict d) = Ok true <->
     8 <= safe_float float_of_str (default VNone (d !! "water_intake")) 0 /\
     (urine ∉ ["Dark Yellow"; "Amber/Brown"]%string) /\
     thirst <> "Very Thirsty / Parched"%string).
Proof.
  intros Hu Ht. apply reads_as_get_label in Hu, Ht. unfold hydration_compliant.
  rewrite py_get_dict, Hu, Ht, not_elem_of_pair. cbn [mbind Result_bind existsb].
  set (water := safe_float float_of_str (default VNone (d !! "water_intake")) 0).
  destruct (Qltb water 8) eqn:Hw;
    [apply Qltb_true in Hw | apply Qltb_false in Hw].
  { split; [eauto |]. split; [discriminate | intros [H _]; lra]. }
  destruct (String.eqb_spec urine "Dark Yellow") as [-> | Hdy].
  { split; [eauto |]. split; [discriminate | intros (_ & [H _] & _); congruence]. }
  destruct (String.eqb_spec urine "Amber/Brown") as [-> | Hab].
  { split; [eauto |]. split; [discriminate | intros (_ & [_ H] & _); congruence]. }
  cbn [orb].
  destruct (String.eqb_spec thirst "Very Thirsty / Parched") as [-> | Hth].
  { split; [eauto |]. split; [discriminate | intros (_ & _ & H); congruence]. }
  split; [eauto |]. split; [| reflexivity].
  intros _. repeat split; assumption.
Qed.

Lemma hydration_compliant_iff_witness :
  hydration_compliant decimal_float compliant_entry = Ok true.
Proof.
  apply (hydration_compliant_iff decimal_float _ "Pale Yellow" "").
  - apply (reads_str "" "Pale Yellow" " "); [reflexivity | reflexivity |].
    apply (trimmed_ends "P" "ale Yello" "w"); reflexivity.
  - apply reads_falsy. reflexivity.
  - split; [vm_compute; discriminate |]. split; [| discriminate].
    apply not_elem_of_pair. split; discriminate.
Defined.

(** ** Weekly windows *)

Lemma select_rows_keep fromisoformat keep (history out : list Value) :
  select_rows fromisoformat keep history = Ok out ->
  forall row, row ∈ out ->
    row ∈ history /\
    exists tsv, py_get_d row "timestamp" (VStr "") = Ok tsv /\
                keep (parse_ts fromisoformat tsv) = Ok true.
Proof.
  revert out. induction history as [|r history IH]; intros out; simpl.
  - intros [= <-] row Hin. apply elem_of_nil in Hin. contradiction.
  - destruct (py_get_d r "timestamp" (VStr "")) as [tsv |] eqn:Hts;
      cbn [mbind Result_bind]; [| discriminate].
    destruct (keep (parse_ts fromisoformat tsv)) as [kept |] eqn:Hkeep;
      cbn [mbind Result_bind]; [| discriminate].
    destruct (select_rows fromisoformat keep history) as [out' |] eqn:Hrec;
      cbn [mbind Result_bind]; [| discriminate].
    intros [= <-] row Hin.
    destruct kept.
    + apply elem_of_cons in Hin as [-> | Hin].
      * split; [apply list_elem_of_here | eauto].
      * destruct (IH out' eq_refl row Hin) as [Hh Hk].
        split; [apply list_elem_of_further, Hh | exact Hk].
    + destruct (IH out' eq_refl row Hin) as [Hh Hk].
      split; [apply list_elem_of_further, Hh | exact Hk].
Qed.

(** A timestamp that passes both tests is naive and lies between the two
    cut-offs. *)
Lemma in_both_windows (now_this now_prev : Z) (ts : option DateTime) :
  in_last_days now_this 7 ts = Ok true -> in_prev_week now_prev ts = Ok true ->
  exists t, ts = Some (Naive t) /\
            (now_this - timedelta_days 7 <= t < now_prev - timedelta_days 7)%Z.
Proof.
  unfold in_last_days, in_prev_week.
  destruct ts as [[t | t off] |]; try discriminate.
  intros [= H1] [= H2]. apply Z.leb_le in H1.
  apply andb_true_iff in H2 as [_ H2]. apply Z.ltb_lt in H2.
  exists t. split; [reflexivity | lia].
Qed.

(** A row that a metric computation puts in both weeks is stamped in the gap
    that the advance of the clock between the two reads opens. *)
Lemma metric_windows_overlap_in_gap fromisoformat (now_this now_prev : Z)
    (history this_week last_week : list Value) :
  metric_windows fromisoformat now_this now_prev history = Ok (this_week, last_week) ->
  forall row, row ∈ this_week -> row ∈ last_week ->
    exists tsv t,
      py_get_d row "timestamp" (VStr "") = Ok tsv /\
      parse_ts fromisoformat tsv = Some (Naive t) /\
      (now_this - timedelta_days 7 <= t < now_prev - timedelta_days 7)%Z.
Proof.
  unfold metric_windows, filter_last_days, filter_prev_week.
  destruct (select_rows fromisoformat (in_last_days now_this 7) history)
    as [tw |] eqn:Hthis; cbn [mbind Result_bind]; [| discriminate].
  destruct (select_rows fromisoformat (in_prev_week now_prev) history)
    as [lw |] eqn:Hprev; cbn [mbind Result_bind]; [| discriminate].
  intros [= <- <-] row Hin Hin'.
  destruct (select_rows_keep _ _ _ _ Hthis row Hin) as [_ [tsv [Hts Hk]]].
  destruct (select_rows_keep _ _ _ _ Hprev row Hin') as [_ [tsv' [Hts' Hk']]].
  rewrite Hts in Hts'. injection Hts' as <-.
  destruct (in_both_windows _ _ _ Hk Hk') as [t [Ht Hgap]].
  exists tsv, t. auto.
Qed.

(** When the second reading of the clock is not later than the first (in
    particular when both are equal), the two weeks share no row. *)
Lemma weekly_windows_disjoint fromisoformat (now_this now_prev : Z)
    (history this_week last_week : list Value) :
  (now_prev <= now_this)%Z ->
  metric_windows fromisoformat now_this now_prev history = Ok (this_week, last_week) ->
  forall row, row ∈ this_week -> row ∉ last_week.
Proof.
  intros Hclock Hrun row Hin Hin'.
  destruct (metric_windows_overlap_in_gap _ _ _ _ _ _ Hrun row Hin Hin')
    as (tsv & t & _ & _ & Hgap).
  lia.
Qed.

(** C8 (the code departs from it). Each filter reads the clock itself.  In a
    metric computation whose two reads are one microsecond apart, the row
    stamped exactly seven days before the first read is selected both by
    [filter_last_days(history, 7)] and by [filter_prev_week(history)]; with
    one reading for both it is in the current week only. *)
Theorem metric_windows_row_in_both_weeks :
  let row := ts_row "2026-02-05T12:00:00" in
  metric_windows iso_datetime sample_now (sample_now + 1) [row] = Ok ([row], [row]) /\
  metric_windows iso_datetime sample_now sample_now [row] = Ok ([row], []).
Proof. split; vm_compute; reflexivity. Qed.

(** A timestamp with a UTC offset is valid ISO-8601, and [fromisoformat]
    reads it as an offset-aware [datetime]: comparing it with the naive
    cut-off raises [TypeError] in both filters. *)
Lemma filters_raise_on_aware_timestamp (now : Z) :
  filter_last_days iso_datetime now [ts_row "2026-02-10T01:30:54+00:00"] 7
    = Raise TypeError /\
  filter_prev_week iso_datetime now [ts_row "2026-02-10T01:30:54+00:00"]
    = Raise TypeError.
Proof. split; reflexivity. Qed.

Lemma filters_on_sample_history :
  filter_last_days iso_datetime sample_now sample_history 7
    = Ok [ts_row "2026-02-10T01:30:54.842839"] /\
  filter_prev_week iso_datetime sample_now sample_history
    = Ok [ts_row "2026-02-05T09:15:00"].
Proof. split; vm_compute; reflexivity. Qed.

(** ** Longitudinal trend *)

Lemma change_penalty_ladder (change : Q) :
  (0.20 <= change -> change_penalty change = 15) /\
  (0.10 <= change -> change < 0.20 -> change_penalty change = 8) /\
  (change <= -0.10 -> change_penalty change = -6) /\
  (-0.10 < change -> change < 0.10 -> change_penalty change = 0).
Proof.
  unfold change_penalty.
  repeat split; intros; qcases; first [reflexivity | exfalso; lra].
Qed.

Lemma trend_penalty_short (values : list Q) :
  (length values < 2)%nat -> trend_penalty values = 0.
Proof.
  destruct values as [|a [|b values]]; simpl; [reflexivity | reflexivity | lia].
Qed.

Lemma trend_penalty_last_two (front : list Q) (prev last : Q) :
  trend_penalty (front ++ [prev; last]) =
  if Qleb prev 0 then 0 else change_penalty ((last - prev) / prev).
Proof. unfold trend_penalty. rewrite rev_app_distr. reflexivity. Qed.

Lemma marker_series_length float_of_str (rows : list Value) gs hs cs ts :
  marker_series float_of_str rows = Ok (gs, hs, cs, ts) ->
  length gs = length rows /\ length hs = length rows /\
  length cs = length rows /\ length ts = length rows.
Proof.
  revert gs hs cs ts. induction rows as [|row rows IH]; intros gs hs cs ts; simpl.
  - intros [= <- <- <- <-]. repeat split.
  - step_binds; try discriminate.
    destruct a4 as [[[gs' hs'] cs'] ts']. intros [= <- <- <- <-].
    destruct (IH _ _ _ _ eq_refl) as (Hg & Hh & Hc & Ht). simpl.
    repeat split; congruence.
Qed.

Lemma entry_fields_get (row : Value) (u : gmap string Value) :
  entry_fields row = Some u -> py_get_d row "user_input" (VDict ∅) = Ok (VDict u).
Proof.
  unfold entry_fields, py_get_d. destruct row as [| | | | | | r]; try discriminate.
  destruct (r !! "user_input") as [[| | | | | | u'] |]; try discriminate;
    intros [= <-]; reflexivity.
Qed.

Lemma marker_series_window float_of_str (rows : list Value)
    (window : list (gmap string Value)) :
  Forall2 (fun row u => entry_fields row = Some u) rows window ->
  marker_series float_of_str rows =
    Ok (marker_value float_of_str "glucose" <$> window,
        marker_value float_of_str "hba1c" <$> window,
        marker_value float_of_str "cholesterol" <$> window,
        marker_value float_of_str "triglycerides" <$> window).
Proof.
  induction 1 as [| row u rows window Hrow _ IH]; [reflexivity |].
  cbn [marker_series]. rewrite (entry_fields_get _ _ Hrow). cbn [mbind Result_bind].
  rewrite !py_get_dict. cbn [mbind Result_bind]. rewrite IH. reflexivity.
Qed.

(** The longitudinal scorer reads no label: on a dict it always returns. *)
Lemma score_longitudinal_entry_dict float_of_str (u : gmap string Value) :
  exists latest, score_longitudinal_entry float_of_str (VDict u) = Ok latest.
Proof.
  unfold score_longitudinal_entry, raw_longitudinal_entry.
  rewrite !py_get_dict. cbn [mbind Result_bind]. eexists. reflexivity.
Qed.

Lemma last_drop {A} (n : nat) (l : list A) (d : A) :
  (n < length l)%nat -> List.last (drop n l) d = List.last l d.
Proof.
  revert l. induction n as [|n IH]; intros l H; [reflexivity |].
  destruct l as [|x l]; [simpl in H; lia |].
  simpl drop. rewrite IH by (simpl in H; lia).
  destruct l; [simpl in H; lia | reflexivity].
Qed.

Lemma last_slice_last {A} (l : list A) (d : A) :
  l <> [] -> List.last (slice_last 3 l) d = List.last l d.
Proof.
  intros Hne. change (slice_last 3 l) with (drop (length l - 3) l).
  apply last_drop. destruct l; [congruence | simpl; lia].
Qed.

Lemma Forall2_last {A B} (R : A -> B -> Prop) (l : list A) (k : list B) (a : A) (b : B) :
  Forall2 R l k -> l <> [] -> R (List.last l a) (List.last k b).
Proof.
  induction 1 as [| x y l k Hxy Hlk IH]; [congruence |]. intros _.
  destruct Hlk as [| x' y' l k Hxy' Hlk]; [exact Hxy |].
  apply IH. discriminate.
Qed.

(** C2, as stated, fails.  The change is taken between the last two values of
    a marker's series, and a marker that an entry does not report is the value
    0 in it.  With glucose 100, 130 and then an entry without glucose, the
    code compares 130 with 0 (penalty -6, score 18.2) where the rule on the
    non-zero values compares 100 with 130 (penalty 15, score 24.5).  With the
    gap in the middle the code's guard gives penalty 0 where the rule on the
    non-zero values gives 15. *)
Lemma longitudinal_trend_keeps_zero_values :
  (trend_penalty [100; 130; 0] == -6 /\ claimed_marker_penalty [100; 130; 0] == 15) /\
  (trend_penalty [100; 0; 130] == 0 /\ claimed_marker_penalty [100; 0; 130] == 15) /\
  (exists v, longitudinal_with_trend decimal_float labs_glucose_then_absent = Ok v /\
             v == 18.2 /\
             claimed_longitudinal_score 20 [100; 130; 0] [0; 0; 7.0] [0; 0; 0] [0; 0; 0]
               == 24.5) /\
  ~ (forall values : list Q, trend_penalty values == claimed_marker_penalty values).
Proof.
  split; [split; reflexivity |]. split; [split; reflexivity |]. split.
  - eexists. split; [vm_compute; reflexivity |]. split; reflexivity.
  - intros H. specialize (H [100; 130; 0]). vm_compute in H. discriminate H.
Qed.

(** C2 (amended). For a non-empty history whose last three rows are dicts
    with a field mapping: each of the four markers has a series of one value
    per row of that window, oldest first, in which a marker that is absent or
    unreadable is 0; a series of fewer than two values gives penalty 0; the
    penalty is 0 when the second-most-recent value of the series is not
    positive, and when the last two values are positive it is the ladder on
    [(last - prev) / prev] (at least +20%: 15, at least +10%: 8, at most
    -10%: -6, else 0); the four penalties are summed and clamped to
    [-10, 15]; and the local score is
    [clamp(0.70 * latest + 0.30 * clamp(latest + penalty, 0, 100), 0, 100)],
    where [latest] is the score of the last entry.  (The statement gives the
    ladder for every most-recent value, positive or not.) *)
Theorem longitudinal_with_trend_formula float_of_str
    (history : list Value) (window : list (gmap string Value)) :
  history <> [] ->
  Forall2 (fun row u => entry_fields row = Some u) (slice_last 3 history) window ->
  let series marker := marker_value float_of_str marker <$> window in
  let total := 0 + trend_penalty (series "glucose") + trend_penalty (series "hba1c")
                 + trend_penalty (series "cholesterol")
                 + trend_penalty (series "triglycerides") in
  let penalty := clamp total (-10) 15 in
  (exists latest,
     score_longitudinal_entry float_of_str (VDict (List.last window ∅)) = Ok latest /\
     longitudinal_with_trend float_of_str history =
       Ok (clamp (0.70 * latest + 0.30 * clamp (latest + penalty) 0 100) 0 100)) /\
  (-10 <= penalty /\ penalty <= 15) /\
  length window = Nat.min 3 (length history) /\
  (forall values : list Q, (length values < 2)%nat -> trend_penalty values = 0) /\
  (forall (front : list Q) (prev last : Q),
     let change := (last - prev) / prev in
     let p := trend_penalty (front ++ [prev; last]) in
     (prev <= 0 -> p = 0) /\
     (0 < prev ->
        (0.20 <= change -> p = 15) /\
        (0.10 <= change -> change < 0.20 -> p = 8) /\
        (change <= -0.10 -> p = -6) /\
        (-0.10 < change -> change < 0.10 -> p = 0))).
Proof.
  intros Hne Hwin series total penalty.
  split; [| split; [| split; [| split]]].
  - destruct (score_longitudinal_entry_dict float_of_str (List.last window ∅))
      as [latest Hlatest].
    exists latest. split; [exact Hlatest |].
    assert (Hlast : entry_fields (last_elem history VNone) = Some (List.last window ∅)).
    { unfold last_elem. rewrite <- (last_slice_last history VNone Hne).
      apply (Forall2_last _ _ _ VNone ∅ Hwin).
      intros E. apply (f_equal length) in E.
      change (slice_last 3 history) with (drop (length history - 3) history) in E.
      rewrite length_drop in E. simpl in E.
      destruct history; [congruence | simpl in E; lia]. }
    unfold longitudinal_with_trend. destruct history as [|row history]; [congruence |].
    rewrite (entry_fields_get _ _ Hlast). cbn [mbind Result_bind].
    rewrite Hlatest. cbn [mbind Result_bind].
    rewrite (marker_series_window float_of_str _ _ Hwin). reflexivity.
  - apply clamp_range. discriminate.
  - apply Forall2_length in Hwin. rewrite <- Hwin.
    change (slice_last 3 history) with (drop (length history - 3) history).
    rewrite length_drop. lia.
  - exact trend_penalty_short.
  - intros front prev last change p. subst p. rewrite trend_penalty_last_two. split.
    + intros H. apply Qleb_true in H. rewrite H. reflexivity.
    + intros H. apply Qleb_false in H. rewrite H. apply change_penalty_ladder.
Qed.

Lemma longitudinal_with_trend_formula_witness :
  exists v,
    longitudinal_with_trend decimal_float sample_labs = Ok v /\
    v == clamp (0.70 * (2400 # 140)
                + 0.30 * clamp ((2400 # 140) + clamp (0 + 15 + 8 + 0 + 0) (-10) 15) 0 100)
               0 100.
Proof.
  destruct (longitudinal_with_trend_formula decimal_float sample_labs
              [ {[ "glucose" := VFloat 90; "hba1c" := VFloat 5.0 ]};
                {[ "glucose" := VFloat 100; "hba1c" := VFloat 5.0 ]};
                {[ "glucose" := VFloat 130; "hba1c" := VFloat 5.5 ]} ])
    as [[latest [Hlatest Hrun]] _].
  - discriminate.
  - repeat constructor; vm_compute; reflexivity.
  - eexists. split; [exact Hrun |].
    vm_compute in Hlatest. injection Hlatest as <-. reflexivity.
Defined.
